(** Shallow embedding of [model/gin.py] (Graph Isomorphism Network) and the
    properties of its constructors and forward passes.

    The Python classes [ApplyNodeFunc], [MLP] and [GIN] are embedded as
    records with an [__init__] and a [forward] each.  Python exceptions and
    the mutable state the code threads through its calls are made explicit
    with a state-and-exception monad.  The numerical kernels of torch and DGL
    (linear maps, batch normalisation, ReLU, dropout, graph pooling, neighbour
    aggregation, tensor addition) are an interface, [Framework]: the model
    only composes them. *)

From Stdlib Require Import String ZArith List Bool Lia QArith Permutation.
Import ListNotations.
Close Scope Q_scope.

(** * Exceptions, results and the monad *)

(** The exceptions the program can raise.  [FrameworkError] stands for any
    exception raised inside a torch or DGL kernel during a forward pass; the
    other constructors are the Python exceptions raised by the code of the
    model itself, by list indexing, by attribute access and by the
    constructors of the library modules. *)
Inductive exn : Type :=
| ValueError (msg : string)
| KeyError (msg : string)
| NotImplementedError
| IndexError
| AttributeError
| FrameworkError.

Inductive result (A : Type) : Type :=
| Ok (a : A)
| Raise (e : exn).
Arguments Ok {A} a.
Arguments Raise {A} e.

(** A computation over a state [S] that returns an [A] or raises. *)
Definition M (St A : Type) : Type := St -> result (A * St).

Definition ret {St A : Type} (a : A) : M St A := fun s => Ok (a, s).

Definition raise {St A : Type} (e : exn) : M St A := fun _ => Raise e.

Definition bind {St A B : Type} (c : M St A) (k : A -> M St B) : M St B :=
  fun s => match c s with
           | Ok (a, s') => k a s'
           | Raise e => Raise e
           end.

Declare Scope py_scope.
Delimit Scope py_scope with py.
Notation "x <- c1 ;; c2" := (bind c1 (fun x => c2))
  (at level 100, c1 at next level, right associativity) : py_scope.
Notation "' pat <- c1 ;; c2" :=
  (bind c1 (fun x => match x with pat => c2 end))
  (at level 100, pat pattern, c1 at next level, right associativity)
  : py_scope.
Open Scope py_scope.

(** [for x in l: b = body(x, b)] *)
Fixpoint for_each {St A B : Type} (l : list A) (b : B) (body : A -> B -> M St B)
  : M St B :=
  match l with
  | [] => ret b
  | a :: l' => b' <- body a b ;; for_each l' b' body
  end.

(** Python's [range(n)]: empty when [n <= 0]. *)
Definition range (n : Z) : list Z := map Z.of_nat (seq 0 (Z.to_nat n)).

(** Python's [enumerate]. *)
Fixpoint enumerate_from {A : Type} (i : Z) (l : list A) : list (Z * A) :=
  match l with
  | [] => []
  | a :: l' => (i, a) :: enumerate_from (i + 1) l'
  end.
Definition enumerate {A : Type} (l : list A) : list (Z * A) :=
  enumerate_from 0 l.

(** Reading an attribute that [__init__] may have left unset. *)
Definition getattr {St A : Type} (o : option A) : M St A :=
  match o with
  | Some a => ret a
  | None => raise AttributeError
  end.

(** [torch.nn.ModuleList.__getitem__] with an integer index: negative indices
    count from the end, anything outside [-len, len) raises [IndexError]. *)
Definition ModuleList_getitem {St A : Type} (l : list A) (idx : Z) : M St A :=
  let len := Z.of_nat (length l) in
  if negb ((- len <=? idx)%Z && (idx <? len)%Z) then raise IndexError
  else
    let idx' := if (idx <? 0)%Z then (idx + len)%Z else idx in
    match nth_error l (Z.to_nat idx') with
    | Some a => ret a
    | None => raise IndexError
    end.

(** * Library modules: torch.nn and dgl.nn

    Each learnable module owns parameters of its own.  A module is
    represented by its hyper-parameters and the identifier [*_id] of its
    parameter block, allocated fresh by the constructor; the state of the
    construction monad is the next free identifier.  Feature dimensions are
    natural numbers (torch refuses a negative size); layer counts are
    Python integers, [Z]; the dropout probability is a rational. *)

Definition fresh : M nat nat := fun s => Ok (s, S s).

Record Linear : Type := mkLinear {
  lin_id : nat;
  in_features : nat;
  out_features : nat
}.

(** [nn.Linear(in_features, out_features)] *)
Definition Linear_init (i o : nat) : M nat Linear :=
  id <- fresh ;;
  ret {| lin_id := id; in_features := i; out_features := o |}.

Record BatchNorm1d : Type := mkBatchNorm1d {
  bn_id : nat;
  num_features : nat
}.

(** [nn.BatchNorm1d(num_features)] *)
Definition BatchNorm1d_init (n : nat) : M nat BatchNorm1d :=
  id <- fresh ;;
  ret {| bn_id := id; num_features := n |}.

Record Dropout : Type := mkDropout { dropout_p : Q }.

(** [nn.Dropout(p)]: torch rejects a probability outside [0, 1]. *)
Definition Dropout_init (p : Q) : M nat Dropout :=
  if Qle_bool 0 p && Qle_bool p 1 then ret {| dropout_p := p |}
  else raise (ValueError "dropout probability has to be between 0 and 1").

(** [dgl.nn.pytorch.glob]: the three readout modules, without parameters. *)
Inductive Pooling : Type := SumPooling | AvgPooling | MaxPooling.

(** The message reducers [GINConv] chooses from. *)
Inductive Reducer : Type := fn_sum | fn_max | fn_mean.

(** * The numerical kernels

    A kernel reads and may change the framework's state (parameter values,
    running statistics of batch normalisation, the random generator dropout
    draws from) and returns a tensor, or fails ([None]) when the framework
    raises, for instance on incompatible shapes. *)
Definition kernel (W T : Type) : Type := W -> option (T * W).

Class Framework : Type := {
  Tensor : Type;
  DGLGraph : Type;
  World : Type;
  (** the shape of a tensor *)
  shape : Tensor -> list nat;
  (** the number of nodes of a batched graph, all graphs together *)
  num_nodes : DGLGraph -> nat;
  (** the number of graphs in a batched graph *)
  batch_size : DGLGraph -> nat;
  (** the batch sizes batch normalisation accepts: every size in evaluation
      mode, at least two rows in training mode *)
  batch_norm_accepts : nat -> bool;
  linear_fwd : Linear -> Tensor -> kernel World Tensor;
  batch_norm_fwd : BatchNorm1d -> Tensor -> kernel World Tensor;
  relu_fwd : Tensor -> kernel World Tensor;
  dropout_fwd : Dropout -> Tensor -> kernel World Tensor;
  pool_fwd : Pooling -> DGLGraph -> Tensor -> kernel World Tensor;
  (** [(1 + eps) * h + reduce(h of the neighbours)], with [eps] the
      parameter block [eps_id] *)
  gin_aggregate : Reducer -> nat -> DGLGraph -> Tensor -> kernel World Tensor;
  (** [a + b] and [a += b] on tensors *)
  tensor_add : Tensor -> Tensor -> kernel World Tensor;
  (** [z + b] for a Python integer [z] *)
  scalar_radd : Z -> Tensor -> kernel World Tensor
}.

Definition lift {W T : Type} (k : kernel W T) : M W T :=
  fun w => match k w with
           | Some r => Ok r
           | None => Raise FrameworkError
           end.

(** * class MLP *)
Module MLP.

Record t : Type := mk {
  linear_or_not : bool;
  num_layers : Z;
  output_dim : nat;
  linear : option Linear;
  linears : option (list Linear);
  batch_norms : option (list BatchNorm1d)
}.

Definition __init__ (num_layers : Z) (input_dim hidden_dim output_dim : nat)
  : M nat t :=
  if (num_layers <? 1)%Z then
    raise (ValueError "number of layers should be positive!")
  else if (num_layers =? 1)%Z then
    linear <- Linear_init input_dim output_dim ;;
    ret {| linear_or_not := true; num_layers := num_layers;
           output_dim := output_dim; linear := Some linear;
           linears := None; batch_norms := None |}
  else
    first <- Linear_init input_dim hidden_dim ;;
    linears <- for_each (range (num_layers - 2)) [first]
                 (fun _ linears =>
                    l <- Linear_init hidden_dim hidden_dim ;;
                    ret (linears ++ [l])) ;;
    last <- Linear_init hidden_dim output_dim ;;
    batch_norms <- for_each (range (num_layers - 1)) []
                     (fun _ batch_norms =>
                        b <- BatchNorm1d_init hidden_dim ;;
                        ret (batch_norms ++ [b])) ;;
    ret {| linear_or_not := false; num_layers := num_layers;
           output_dim := output_dim; linear := None;
           linears := Some (linears ++ [last]);
           batch_norms := Some batch_norms |}.

Section Forward.
Context {F : Framework}.

Definition forward (self : t) (x : Tensor) : M World Tensor :=
  if linear_or_not self then
    linear <- getattr (linear self) ;;
    lift (linear_fwd linear x)
  else
    h <- for_each (range (num_layers self - 1)) x
           (fun i h =>
              batch_norms <- getattr (batch_norms self) ;;
              bn <- ModuleList_getitem batch_norms i ;;
              linears <- getattr (linears self) ;;
              lin <- ModuleList_getitem linears i ;;
              a <- lift (linear_fwd lin h) ;;
              b <- lift (batch_norm_fwd bn a) ;;
              lift (relu_fwd b)) ;;
    linears <- getattr (linears self) ;;
    last <- ModuleList_getitem linears (-1) ;;
    lift (linear_fwd last h).
End Forward.

End MLP.

(** * class ApplyNodeFunc *)
Module ApplyNodeFunc.

Record t : Type := mk {
  mlp : MLP.t;
  bn : BatchNorm1d
}.

Definition __init__ (mlp : MLP.t) : M nat t :=
  bn <- BatchNorm1d_init (MLP.output_dim mlp) ;;
  ret {| mlp := mlp; bn := bn |}.

Section Forward.
Context {F : Framework}.

Definition forward (self : t) (h : Tensor) : M World Tensor :=
  h <- MLP.forward (mlp self) h ;;
  h <- lift (batch_norm_fwd (bn self) h) ;;
  lift (relu_fwd h).
End Forward.

End ApplyNodeFunc.

(** * dgl.nn.pytorch.conv.GINConv

    The class is imported from DGL; its source is not part of the
    repository. *)
Module GINConv.

Record t : Type := mk {
  apply_func : ApplyNodeFunc.t;
  reducer : Reducer;
  eps_id : nat;
  init_eps : Z;
  learn_eps : bool
}.

(** Modelled from the spec: the constructor of DGL's [GINConv], which the
    repository imports.  The neighbour pooling strategy is one of sum, mean
    and max, and any other selector is rejected at construction (DGL raises
    [KeyError]); the layer keeps [apply_func] and creates its [eps]. *)
Definition __init__ (apply_func : ApplyNodeFunc.t) (aggregator_type : string)
  (init_eps : Z) (learn_eps : bool) : M nat t :=
  reducer <- (if (aggregator_type =? "sum")%string then ret fn_sum
              else if (aggregator_type =? "max")%string then ret fn_max
              else if (aggregator_type =? "mean")%string then ret fn_mean
              else raise (KeyError "Aggregator type not recognized.")) ;;
  eps <- fresh ;;
  ret {| apply_func := apply_func; reducer := reducer; eps_id := eps;
         init_eps := init_eps; learn_eps := learn_eps |}.

Section Forward.
Context {F : Framework}.

(** Modelled from the spec: the forward pass of DGL's [GINConv].  The
    features of the neighbours are aggregated with the chosen reducer and
    combined with the feature of the node itself, and the result is updated
    by [apply_func] (here [ApplyNodeFunc]: MLP, BN and ReLU). *)
Definition forward (self : t) (g : DGLGraph) (feat : Tensor)
  : M World Tensor :=
  rst <- lift (gin_aggregate (reducer self) (eps_id self) g feat) ;;
  ApplyNodeFunc.forward (apply_func self) rst.
End Forward.

End GINConv.

(** * class GIN *)
Module GIN.

Record t : Type := mk {
  num_layers : Z;
  learn_eps : bool;
  ginlayers : list GINConv.t;
  batch_norms : list BatchNorm1d;
  linears_prediction : list Linear;
  drop : Dropout;
  pool : Pooling
}.

Definition __init__ (num_layers num_mlp_layers : Z)
  (input_dim hidden_dim output_dim : nat) (final_dropout : Q)
  (learn_eps : bool) (graph_pooling_type neighbor_pooling_type : string)
  : M nat t :=
  '(ginlayers, batch_norms) <-
    for_each (range (num_layers - 1)) ([], [])
      (fun layer '(ginlayers, batch_norms) =>
         mlp <- (if (layer =? 0)%Z
                 then MLP.__init__ num_mlp_layers input_dim hidden_dim
                        hidden_dim
                 else MLP.__init__ num_mlp_layers hidden_dim hidden_dim
                        hidden_dim) ;;
         f <- ApplyNodeFunc.__init__ mlp ;;
         conv <- GINConv.__init__ f neighbor_pooling_type 0 learn_eps ;;
         b <- BatchNorm1d_init hidden_dim ;;
         ret (ginlayers ++ [conv], batch_norms ++ [b])) ;;
  linears_prediction <-
    for_each (range num_layers) []
      (fun layer linears_prediction =>
         l <- (if (layer =? 0)%Z
               then Linear_init input_dim output_dim
               else Linear_init hidden_dim output_dim) ;;
         ret (linears_prediction ++ [l])) ;;
  drop <- Dropout_init final_dropout ;;
  pool <- (if (graph_pooling_type =? "sum")%string then ret SumPooling
           else if (graph_pooling_type =? "mean")%string then ret AvgPooling
           else if (graph_pooling_type =? "max")%string then ret MaxPooling
           else raise NotImplementedError) ;;
  ret {| num_layers := num_layers; learn_eps := learn_eps;
         ginlayers := ginlayers; batch_norms := batch_norms;
         linears_prediction := linears_prediction;
         drop := drop; pool := pool |}.

Section Forward.
Context {F : Framework}.

(** The value of [score_over_layer]: the integer it starts as, or a
    tensor. *)
Inductive score : Type :=
| PyInt (z : Z)
| PyTensor (x : Tensor).

(** [score_over_layer += x] *)
Definition iadd (acc : score) (x : Tensor) : M World score :=
  match acc with
  | PyInt z => y <- lift (scalar_radd z x) ;; ret (PyTensor y)
  | PyTensor a => y <- lift (tensor_add a x) ;; ret (PyTensor y)
  end.

(** The first loop of [forward]: the list [hidden_rep]. *)
Definition hidden_rep (self : t) (g : DGLGraph) (h : Tensor)
  : M World (list Tensor) :=
  '(_, hidden_rep) <-
    for_each (range (num_layers self - 1)) (h, [h])
      (fun i '(h, hidden_rep) =>
         conv <- ModuleList_getitem (ginlayers self) i ;;
         h <- GINConv.forward conv g h ;;
         bn <- ModuleList_getitem (batch_norms self) i ;;
         h <- lift (batch_norm_fwd bn h) ;;
         h <- lift (relu_fwd h) ;;
         ret (h, hidden_rep ++ [h])) ;;
  ret hidden_rep.

(** The second loop of [forward]: pooling and prediction per layer. *)
Definition score_over_layer (self : t) (g : DGLGraph)
  (hidden_rep : list Tensor) : M World score :=
  for_each (enumerate hidden_rep) (PyInt 0)
    (fun '(i, h) score_over_layer =>
       pooled_h <- lift (pool_fwd (pool self) g h) ;;
       lin <- ModuleList_getitem (linears_prediction self) i ;;
       y <- lift (linear_fwd lin pooled_h) ;;
       d <- lift (dropout_fwd (drop self) y) ;;
       iadd score_over_layer d).

Definition forward (self : t) (g : DGLGraph) (h : Tensor)
  : M World score :=
  hidden_rep <- hidden_rep self g h ;;
  score_over_layer self g hidden_rep.
End Forward.

End GIN.

(** * The constructor of GIN, phase by phase *)

(** The aggregator names DGL's [GINConv] recognises. *)
Definition recognised_aggregator (name : string) : bool :=
  ((name =? "sum") || (name =? "max") || (name =? "mean"))%string.

(** One iteration of the first loop of [GIN.__init__]. *)
Definition conv_layer_step (num_mlp_layers : Z) (input_dim hidden_dim : nat)
  (learn_eps : bool) (neighbor_pooling_type : string) (layer : Z)
  (acc : list GINConv.t * list BatchNorm1d)
  : M nat (list GINConv.t * list BatchNorm1d) :=
  let '(ginlayers, batch_norms) := acc in
  mlp <- (if (layer =? 0)%Z
          then MLP.__init__ num_mlp_layers input_dim hidden_dim hidden_dim
          else MLP.__init__ num_mlp_layers hidden_dim hidden_dim hidden_dim) ;;
  f <- ApplyNodeFunc.__init__ mlp ;;
  conv <- GINConv.__init__ f neighbor_pooling_type 0 learn_eps ;;
  b <- BatchNorm1d_init hidden_dim ;;
  ret (ginlayers ++ [conv], batch_norms ++ [b]).

(** One iteration of the second loop of [GIN.__init__]. *)
Definition head_step (input_dim hidden_dim output_dim : nat) (layer : Z)
  (linears_prediction : list Linear) : M nat (list Linear) :=
  l <- (if (layer =? 0)%Z
        then Linear_init input_dim output_dim
        else Linear_init hidden_dim output_dim) ;;
  ret (linears_prediction ++ [l]).

(** The selection of the readout at the end of [GIN.__init__]. *)
Definition select_pool (graph_pooling_type : string) : M nat Pooling :=
  if (graph_pooling_type =? "sum")%string then ret SumPooling
  else if (graph_pooling_type =? "mean")%string then ret AvgPooling
  else if (graph_pooling_type =? "max")%string then ret MaxPooling
  else raise NotImplementedError.

(** The layer counts and the neighbour aggregator let the layers be built:
    they are looked at only when there is a graph convolution to build. *)
Definition layers_constructible (num_layers num_mlp_layers : Z)
  (neighbor_pooling_type : string) : Prop :=
  (2 <= num_layers)%Z ->
  (1 <= num_mlp_layers)%Z /\ recognised_aggregator neighbor_pooling_type = true.

(** The probability torch's [Dropout] accepts. *)
Definition dropout_valid (p : Q) : Prop :=
  Qle_bool 0 p && Qle_bool p 1 = true.

(** * The modules the constructors build *)

(** The linear layers of an MLP of [2 + k] layers built at identifier [s]. *)
Definition mlp_hidden_linears (k i h s : nat) : list Linear :=
  mkLinear s i h :: map (fun id => mkLinear id h h) (seq (S s) k).

Definition mlp_last_linear (k h o s : nat) : Linear :=
  mkLinear (S s + k) h o.

Definition mlp_batch_norms (k h s : nat) : list BatchNorm1d :=
  map (fun id => mkBatchNorm1d id h) (seq (S (S s) + k) (S k)).

(** The dimensions of a hidden layer: input and output width of its linear
    transform, width of its batch normalisation. *)
Definition layer_dims (layer : Linear * BatchNorm1d) : nat * nat * nat :=
  (in_features (fst layer), out_features (fst layer), num_features (snd layer)).

(** The width of layer representation [j]: the input for [j = 0]. *)
Definition rep_dim (input_dim hidden_dim : nat) (j : nat) : nat :=
  if Nat.eqb j 0 then input_dim else hidden_dim.

(** The prediction heads [GIN.__init__] builds from identifier [s]. *)
Definition built_heads_at (num_layers : Z) (input_dim hidden_dim
  output_dim : nat) (s : nat) : list Linear :=
  map (fun j => mkLinear (s + j) (rep_dim input_dim hidden_dim j) output_dim)
    (seq 0 (Z.to_nat num_layers)).

(** The parameter blocks of an MLP. *)
Definition MLP_param_ids (m : MLP.t) : list nat :=
  match MLP.linear m with Some l => [lin_id l] | None => [] end
  ++ match MLP.linears m with Some ls => map lin_id ls | None => [] end
  ++ match MLP.batch_norms m with Some bs => map bn_id bs | None => [] end.

(** The parameter blocks of a graph convolution: those of its MLP, of the
    batch normalisation of its [ApplyNodeFunc], and its [eps]. *)
Definition conv_param_ids (c : GINConv.t) : list nat :=
  MLP_param_ids (ApplyNodeFunc.mlp (GINConv.apply_func c))
  ++ [bn_id (ApplyNodeFunc.bn (GINConv.apply_func c)); GINConv.eps_id c].

(** The parameter blocks of a GIN outside its prediction heads. *)
Definition body_param_ids (m : GIN.t) : list nat :=
  flat_map conv_param_ids (GIN.ginlayers m) ++ map bn_id (GIN.batch_norms m).

(** A graph-convolution layer as [GIN.__init__] builds it: its MLP comes
    from [MLP.__init__] with [num_mlp_layers] layers from width [din] to
    [hid], and the batch normalisation of its [ApplyNodeFunc] has width
    [hid]. *)
Definition conv_built (num_mlp_layers : Z) (din hid : nat) (c : GINConv.t)
  : Prop :=
  (exists s s',
      MLP.__init__ num_mlp_layers din hid hid s
      = Ok (ApplyNodeFunc.mlp (GINConv.apply_func c), s'))
  /\ num_features (ApplyNodeFunc.bn (GINConv.apply_func c)) = hid.

Record GIN_built (num_layers num_mlp_layers : Z)
  (input_dim hidden_dim output_dim : nat) (m : GIN.t) : Prop := {
  built_num_layers : GIN.num_layers m = num_layers;
  built_ginlayers :
    length (GIN.ginlayers m) = Z.to_nat (num_layers - 1);
  built_conv : forall j c,
    nth_error (GIN.ginlayers m) j = Some c ->
    conv_built num_mlp_layers (rep_dim input_dim hidden_dim j) hidden_dim c;
  built_batch_norms :
    length (GIN.batch_norms m) = Z.to_nat (num_layers - 1);
  built_batch_norm : forall j b,
    nth_error (GIN.batch_norms m) j = Some b -> num_features b = hidden_dim;
  built_heads :
    length (GIN.linears_prediction m) = Z.to_nat num_layers;
  built_head : forall j l,
    nth_error (GIN.linears_prediction m) j = Some l ->
    in_features l = rep_dim input_dim hidden_dim j
    /\ out_features l = output_dim;
  built_heads_distinct : NoDup (map lin_id (GIN.linears_prediction m));
  built_heads_own : forall l,
    In l (GIN.linears_prediction m) -> ~ In (lin_id l) (body_param_ids m)
}.
Arguments built_num_layers {_ _ _ _ _ _} _.
Arguments built_ginlayers {_ _ _ _ _ _} _.
Arguments built_conv {_ _ _ _ _ _} _ _ {_} _.
Arguments built_batch_norms {_ _ _ _ _ _} _.
Arguments built_batch_norm {_ _ _ _ _ _} _ _ {_} _.
Arguments built_heads {_ _ _ _ _ _} _.
Arguments built_head {_ _ _ _ _ _} _ _ {_} _.
Arguments built_heads_distinct {_ _ _ _ _ _} _.
Arguments built_heads_own {_ _ _ _ _ _} _ _ _.

(** * A program logic for computations

    [triple E c Q]: from every state, [c] returns a value satisfying [Q] or
    raises an exception in [E].  With [E] empty this is total correctness. *)
Definition triple {St A : Type} (E : exn -> Prop) (c : M St A) (Q : A -> Prop)
  : Prop :=
  forall s, match c s with
            | Ok (a, _) => Q a
            | Raise e => E e
            end.

(** * Specifications of the forward passes *)
Section Specs.
Context {F : Framework}.

(** A stack of hidden layers: each a linear transform followed by batch
    normalisation and ReLU. *)
Fixpoint hidden_stack (layers : list (Linear * BatchNorm1d)) (h : Tensor)
  : M World Tensor :=
  match layers with
  | [] => ret h
  | (lin, bn) :: rest =>
      a <- lift (linear_fwd lin h) ;;
      b <- lift (batch_norm_fwd bn a) ;;
      r <- lift (relu_fwd b) ;;
      hidden_stack rest r
  end.

(** A multi-layer perceptron with linear output. *)
Definition perceptron (hidden : list (Linear * BatchNorm1d)) (out : Linear)
  (x : Tensor) : M World Tensor :=
  h <- hidden_stack hidden x ;;
  lift (linear_fwd out h).





End Specs.

(** * Shape laws of the kernels

    [yields k s]: from every state the kernel [k] returns a tensor of shape
    [s]. *)
Definition yields {F : Framework} (k : kernel World Tensor) (s : list nat)
  : Prop :=
  forall w, exists y w', k w = Some (y, w') /\ shape y = s.

(** What torch and DGL promise about shapes: a linear map replaces the
    width of its input rows, batch normalisation (on an accepted number of
    rows), ReLU, dropout and neighbour aggregation keep the shape, a readout
    returns one row per graph, and addition keeps the shape of its equally
    shaped arguments. *)
Class ShapeLaws (F : Framework) : Prop := {
  linear_shape : forall l x n,
    shape x = [n; in_features l] ->
    yields (linear_fwd l x) [n; out_features l];
  batch_norm_shape : forall b x n,
    batch_norm_accepts n = true -> shape x = [n; num_features b] ->
    yields (batch_norm_fwd b x) [n; num_features b];
  relu_shape : forall x, yields (relu_fwd x) (shape x);
  dropout_shape : forall d x, yields (dropout_fwd d x) (shape x);
  pool_shape : forall p g x d,
    shape x = [num_nodes g; d] ->
    yields (pool_fwd p g x) [batch_size g; d];
  aggregate_shape : forall r e g x d,
    shape x = [num_nodes g; d] ->
    yields (gin_aggregate r e g x) [num_nodes g; d];
  add_shape : forall a b,
    shape a = shape b -> yields (tensor_add a b) (shape a);
  radd_shape : forall z x, yields (scalar_radd z x) (shape x)
}.

(** * A reference framework: tensors as their shapes

    The smallest framework that satisfies the shape laws: a tensor is its
    shape, a batched graph its number of nodes and of graphs, and batch
    normalisation runs in training mode (it wants two rows). *)
Module ShapeOnly.

Fixpoint shape_eqb (a b : list nat) : bool :=
  match a, b with
  | [], [] => true
  | x :: a', y :: b' => Nat.eqb x y && shape_eqb a' b'
  | _, _ => false
  end.

(** A kernel on matrices: it checks the rows and the width of its input and
    sets the number of rows of its output. *)
Definition rows_to (check : nat -> nat -> bool) (width : nat -> nat -> nat)
  (x : list nat) : kernel unit (list nat) :=
  fun w => match x with
           | [n; d] => if check n d then Some ([width n d; d], w) else None
           | _ => None
           end.

Definition linear (l : Linear) (x : list nat) : kernel unit (list nat) :=
  fun w => match x with
           | [n; d] => if Nat.eqb d (in_features l)
                       then Some ([n; out_features l], w) else None
           | _ => None
           end.

Definition batch_norm (b : BatchNorm1d) (x : list nat)
  : kernel unit (list nat) :=
  rows_to (fun n d => Nat.eqb d (num_features b) && Nat.leb 2 n)
    (fun n _ => n) x.

Definition keep (x : list nat) : kernel unit (list nat) :=
  fun w => Some (x, w).

Definition readout (g : nat * nat) (x : list nat) : kernel unit (list nat) :=
  rows_to (fun n _ => Nat.eqb n (fst g)) (fun _ _ => snd g) x.

Definition aggregate (g : nat * nat) (x : list nat) : kernel unit (list nat) :=
  rows_to (fun n _ => Nat.eqb n (fst g)) (fun n _ => n) x.

Definition add (a b : list nat) : kernel unit (list nat) :=
  fun w => if shape_eqb a b then Some (a, w) else None.

Definition framework : Framework := {|
  Tensor := list nat;
  DGLGraph := nat * nat;
  World := unit;
  shape := fun x => x;
  num_nodes := fst;
  batch_size := snd;
  batch_norm_accepts := Nat.leb 2;
  linear_fwd := linear;
  batch_norm_fwd := batch_norm;
  relu_fwd := keep;
  dropout_fwd := fun _ => keep;
  pool_fwd := fun _ => readout;
  gin_aggregate := fun _ _ => aggregate;
  tensor_add := add;
  scalar_radd := fun _ => keep
|}.

End ShapeOnly.

(** * Example models *)

(** A model without layers, the default of [model_of]. *)
Definition empty_gin : GIN.t :=
  GIN.mk 0 false [] [] [] (mkDropout 0) SumPooling.

(** The model a construction returns. *)
Definition model_of (r : result (GIN.t * nat)) : GIN.t :=
  match r with
  | Ok (m, _) => m
  | Raise _ => empty_gin
  end.

(** [GIN(3, 2, 4, 5, 2, 0.5, True, 'sum', 'max')] *)
Definition example_gin : GIN.t :=
  Eval vm_compute in
    model_of (GIN.__init__ 3 2 4 5 2 (1 # 2) true "sum" "max" 0).

(** * Further definitions: parameter blocks, readout of a single layer *)

(** All the parameter blocks of a GIN: those of its graph convolutions and
    batch normalisations, then those of its prediction heads. *)
Definition GIN_param_ids (m : GIN.t) : list nat :=
  body_param_ids m ++ map lin_id (GIN.linears_prediction m).

(** The number of parameter blocks one graph-convolution layer of
    [GIN.__init__] allocates: the [2 * num_mlp_layers - 1] of its MLP, the
    batch normalisation of [ApplyNodeFunc], [eps], and the batch
    normalisation that follows the layer. *)
Definition blocks_per_layer (num_mlp_layers : Z) : nat :=
  Z.to_nat (2 * num_mlp_layers + 2).

Section SingleLayer.
Context {F : Framework}.

(** Pooling, one linear head, dropout, added to the integer 0. *)
Definition linear_readout (pool : Pooling) (head : Linear) (drop : Dropout)
  (g : DGLGraph) (h : Tensor) : M World GIN.score :=
  pooled <- lift (pool_fwd pool g h) ;;
  y <- lift (linear_fwd head pooled) ;;
  d <- lift (dropout_fwd drop y) ;;
  r <- lift (scalar_radd 0 d) ;;
  ret (GIN.PyTensor r).

End SingleLayer.

(** The module a construction of an MLP returns; a bare linear model when
    it raised. *)
Definition mlp_of (r : result (MLP.t * nat)) : MLP.t :=
  match r with
  | Ok (m, _) => m
  | Raise _ => MLP.mk true 1 0 None None None
  end.

(** [MLP(3, 4, 5, 2)] *)
Definition example_mlp : MLP.t :=
  Eval vm_compute in mlp_of (MLP.__init__ 3 4 5 2 0).

(** [ApplyNodeFunc(MLP(3, 4, 5, 2))] *)
Definition example_apply_func : ApplyNodeFunc.t :=
  Eval vm_compute in
    match ApplyNodeFunc.__init__ example_mlp 5 with
    | Ok (f, _) => f
    | Raise _ => ApplyNodeFunc.mk example_mlp (mkBatchNorm1d 0 0)
    end.

(** [GIN(0, 0, 4, 5, 2, 0.5, True, 'sum', 'sum')] *)
Definition layerless_gin : GIN.t :=
  Eval vm_compute in
    model_of (GIN.__init__ 0 0 4 5 2 (1 # 2) true "sum" "sum" 0).

(** [GIN(1, 0, 4, 5, 2, 0.5, True, 'mean', 'median')] *)
Definition single_layer_gin : GIN.t :=
  Eval vm_compute in
    model_of (GIN.__init__ 1 0 4 5 2 (1 # 2) true "mean" "median" 0).

(** * Lemmas on computations, lists and the constructors *)

Lemma bind_ok {St A B : Type} {c : M St A} (k : A -> M St B) {s a s1} :
  c s = Ok (a, s1) -> bind c k s = k a s1.
Proof. intros H. unfold bind. now rewrite H. Qed.

Lemma bind_raise {St A B : Type} {c : M St A} (k : A -> M St B) {s e} :
  c s = Raise e -> bind c k s = Raise e.
Proof. intros H. unfold bind. now rewrite H. Qed.

Lemma bind_ok_inv {St A B : Type} {c : M St A} {k : A -> M St B} {s r} :
  bind c k s = Ok r -> exists a s1, c s = Ok (a, s1) /\ k a s1 = Ok r.
Proof.
  unfold bind. destruct (c s) as [[a s1]|e]; intros H; [|discriminate].
  now exists a, s1.
Qed.

Lemma range_nonpos (n : Z) : (n <= 0)%Z -> range n = [].
Proof.
  intros H. unfold range.
  replace (Z.to_nat n) with 0 by lia. reflexivity.
Qed.

Lemma length_range (n : Z) : length (range n) = Z.to_nat n.
Proof. unfold range. now rewrite length_map, length_seq. Qed.

(** An index in bounds is read without [IndexError]. *)
Lemma ModuleList_getitem_nth {St A : Type} {l : list A} {k : nat} {a : A}
  (s : St) :
  nth_error l k = Some a -> ModuleList_getitem l (Z.of_nat k) s = Ok (a, s).
Proof.
  intros H. unfold ModuleList_getitem.
  assert (Hk : k < length l) by (apply nth_error_Some; congruence).
  replace ((- Z.of_nat (length l) <=? Z.of_nat k)%Z) with true
    by (symmetry; apply Z.leb_le; lia).
  replace ((Z.of_nat k <? Z.of_nat (length l))%Z) with true
    by (symmetry; apply Z.ltb_lt; lia).
  replace ((Z.of_nat k <? 0)%Z) with false
    by (symmetry; apply Z.ltb_ge; lia).
  cbn. rewrite Nat2Z.id, H. reflexivity.
Qed.

(** Index [-1] reads the last element. *)
Lemma ModuleList_getitem_last {St A : Type} (l : list A) (a : A) (s : St) :
  ModuleList_getitem (l ++ [a]) (-1) s = Ok (a, s).
Proof.
  unfold ModuleList_getitem. rewrite length_app. cbn [length].
  replace ((- Z.of_nat (length l + 1) <=? -1)%Z) with true
    by (symmetry; apply Z.leb_le; lia).
  replace ((-1 <? Z.of_nat (length l + 1))%Z) with true
    by (symmetry; apply Z.ltb_lt; lia).
  cbn [negb andb]. replace ((-1 <? 0)%Z) with true by reflexivity.
  replace (Z.to_nat (-1 + Z.of_nat (length l + 1))) with (length l) by lia.
  rewrite nth_error_app2, Nat.sub_diag by lia. reflexivity.
Qed.

(** A loop whose body allocates one module and appends it. *)
Lemma for_each_append_fresh {I X : Type} (mkx : nat -> X) (n : nat) :
  forall (idxs : list I) (acc : list X) (s : nat),
    length idxs = n ->
    for_each idxs acc
      (fun _ acc => x <- (id <- fresh ;; ret (mkx id)) ;; ret (acc ++ [x])) s
    = Ok (acc ++ map mkx (seq s n), s + n).
Proof.
  induction n as [|n IH]; intros idxs acc s Hlen.
  - destruct idxs; [|discriminate]. cbn. now rewrite app_nil_r, Nat.add_0_r.
  - destruct idxs as [|i idxs]; [discriminate|]. cbn [for_each].
    unfold bind at 1. cbn.
    rewrite IH by (cbn in Hlen; lia).
    rewrite <- app_assoc. cbn. do 2 f_equal. lia.
Qed.

(** Anything below one layer is rejected. *)
Lemma MLP_init_rejects (n : Z) (i h o s : nat) :
  (n < 1)%Z ->
  MLP.__init__ n i h o s
  = Raise (ValueError "number of layers should be positive!").
Proof.
  intros H. unfold MLP.__init__.
  replace (n <? 1)%Z with true by (symmetry; apply Z.ltb_lt; lia).
  reflexivity.
Qed.

(** One layer: a single [Linear(input_dim, output_dim)]. *)
Lemma MLP_init_single (i h o s : nat) :
  MLP.__init__ 1 i h o s
  = Ok (MLP.mk true 1 o (Some (mkLinear s i o)) None None, S s).
Proof. reflexivity. Qed.

(** Two layers or more: the value [__init__] returns, in closed form. *)
Lemma MLP_init_multi (n : Z) (i h o s : nat) :
  (2 <= n)%Z ->
  let k := Z.to_nat (n - 2) in
  MLP.__init__ n i h o s
  = Ok (MLP.mk false n o None
          (Some (mlp_hidden_linears k i h s ++ [mlp_last_linear k h o s]))
          (Some (mlp_batch_norms k h s)),
        s + (2 * k + 3)).
Proof.
  intros Hn k. unfold MLP.__init__.
  replace (n <? 1)%Z with false by (symmetry; apply Z.ltb_ge; lia).
  replace (n =? 1)%Z with false by (symmetry; apply Z.eqb_neq; lia).
  erewrite bind_ok by reflexivity.
  erewrite bind_ok.
  2:{ unfold Linear_init.
      apply (for_each_append_fresh (fun id => mkLinear id h h) k).
      rewrite length_range. reflexivity. }
  erewrite bind_ok by reflexivity.
  erewrite bind_ok.
  2:{ unfold BatchNorm1d_init.
      apply (for_each_append_fresh (fun id => mkBatchNorm1d id h) (S k)).
      rewrite length_range. lia. }
  unfold ret, mlp_hidden_linears, mlp_last_linear, mlp_batch_norms.
  cbn [app]. do 2 f_equal. lia.
Qed.

Lemma length_mlp_hidden_linears (k i h s : nat) :
  length (mlp_hidden_linears k i h s) = S k.
Proof. unfold mlp_hidden_linears. cbn. now rewrite length_map, length_seq. Qed.

Lemma length_mlp_batch_norms (k h s : nat) :
  length (mlp_batch_norms k h s) = S k.
Proof. unfold mlp_batch_norms. now rewrite length_map, length_seq. Qed.

Lemma nth_error_combine_inv {A B : Type} (l1 : list A) (l2 : list B) :
  forall j a b,
    nth_error (combine l1 l2) j = Some (a, b) ->
    nth_error l1 j = Some a /\ nth_error l2 j = Some b.
Proof.
  revert l2. induction l1 as [|x l1 IH]; intros [|y l2] [|j] a b H;
    cbn in H; try discriminate.
  - inversion H. now split.
  - cbn. now apply IH.
Qed.

Lemma triple_ret {St A : Type} (E : exn -> Prop) (a : A) (Q : A -> Prop) :
  Q a -> triple (St := St) E (ret a) Q.
Proof. intros H s. exact H. Qed.

Lemma triple_bind {St A B : Type} (E : exn -> Prop) (c : M St A)
  (k : A -> M St B) (P : A -> Prop) (Q : B -> Prop) :
  triple E c P -> (forall a, P a -> triple E (k a) Q) -> triple E (bind c k) Q.
Proof.
  intros Hc Hk s. unfold bind. specialize (Hc s).
  destruct (c s) as [[a s1]|e]; [|exact Hc].
  apply (Hk a Hc s1).
Qed.

Lemma triple_weaken {St A : Type} (E : exn -> Prop) (c : M St A)
  (P Q : A -> Prop) :
  triple E c P -> (forall a, P a -> Q a) -> triple E c Q.
Proof.
  intros Hc HPQ s. specialize (Hc s).
  destruct (c s) as [[a s1]|e]; auto.
Qed.

Lemma triple_getitem {St A : Type} (E : exn -> Prop) (l : list A) (k : nat)
  (a : A) :
  nth_error l k = Some a ->
  triple (St := St) E (ModuleList_getitem l (Z.of_nat k)) (eq a).
Proof. intros H s. rewrite (ModuleList_getitem_nth s H). reflexivity. Qed.

(** The loop rule: [I j b] holds of the loop variable before iteration [j]. *)
Lemma triple_for_each {St A B : Type} (E : exn -> Prop) (I : nat -> B -> Prop)
  (body : A -> B -> M St B) :
  forall (l : list A) (k0 : nat) (b : B),
    I k0 b ->
    (forall j a b, nth_error l j = Some a -> I (k0 + j) b ->
                   triple E (body a b) (I (S (k0 + j)))) ->
    triple E (for_each l b body) (I (k0 + length l)).
Proof.
  induction l as [|a l IH]; intros k0 b Hb Hbody.
  - cbn. rewrite Nat.add_0_r. now apply triple_ret.
  - cbn [for_each length].
    apply triple_bind with (P := I (S k0)).
    + specialize (Hbody 0 a b eq_refl). rewrite Nat.add_0_r in Hbody. auto.
    + intros b' Hb'. replace (k0 + S (length l)) with (S k0 + length l) by lia.
      apply IH; [exact Hb'|].
      intros j a' b'' Hj HI.
      replace (S k0 + j) with (k0 + S j) in * by lia.
      now apply Hbody.
Qed.

Lemma nth_error_range (n : Z) (j : nat) (a : Z) :
  nth_error (range n) j = Some a -> a = Z.of_nat j /\ j < Z.to_nat n.
Proof.
  unfold range. intros H.
  assert (Hj : j < Z.to_nat n).
  { assert (Hlt : j < length (map Z.of_nat (seq 0 (Z.to_nat n))))
      by (apply nth_error_Some; congruence).
    now rewrite length_map, length_seq in Hlt. }
  rewrite nth_error_map, (nth_error_nth' _ 0) in H by now rewrite length_seq.
  rewrite seq_nth in H by exact Hj. cbn in H. split; [congruence|exact Hj].
Qed.

Lemma nth_error_enumerate_from {A : Type} (l : list A) :
  forall (i0 : Z) (j : nat) (i : Z) (x : A),
    nth_error (enumerate_from i0 l) j = Some (i, x) ->
    i = (i0 + Z.of_nat j)%Z /\ nth_error l j = Some x.
Proof.
  induction l as [|a l IH]; intros i0 [|j] i x H; cbn in H; try discriminate.
  - inversion H. split; [lia|reflexivity].
  - apply IH in H. destruct H as [-> H]. split; [lia|exact H].
Qed.

Lemma length_enumerate_from {A : Type} (l : list A) (i0 : Z) :
  length (enumerate_from i0 l) = length l.
Proof. revert i0. induction l; intros; cbn; auto. Qed.

Lemma layer_dims_inner (h k : nat) :
  forall a b,
    map layer_dims
      (combine (map (fun id => mkLinear id h h) (seq a k))
         (map (fun id => mkBatchNorm1d id h) (seq b k)))
    = repeat (h, h, h) k.
Proof.
  induction k as [|k IH]; intros a b; cbn; [reflexivity|].
  f_equal. apply IH.
Qed.

(** The hidden layers [__init__] builds: input_dim to hidden_dim first, then
    hidden_dim to hidden_dim, each normalised at width hidden_dim. *)
Lemma mlp_hidden_dims (k i h s : nat) :
  map layer_dims (combine (mlp_hidden_linears k i h s) (mlp_batch_norms k h s))
  = (i, h, h) :: repeat (h, h, h) k.
Proof.
  unfold mlp_hidden_linears, mlp_batch_norms. cbn [seq map combine].
  f_equal. apply layer_dims_inner.
Qed.

(** A partial-correctness loop rule that also follows the state. *)
Lemma for_each_inv {St A B : Type} (I : nat -> B -> St -> Prop)
  (body : A -> B -> M St B) :
  forall (l : list A) (k0 : nat) (b : B) (s : St) (b' : B) (s' : St),
    I k0 b s ->
    (forall j a b s b' s',
        nth_error l j = Some a -> I (k0 + j) b s ->
        body a b s = Ok (b', s') -> I (S (k0 + j)) b' s') ->
    for_each l b body s = Ok (b', s') ->
    I (k0 + length l) b' s'.
Proof.
  induction l as [|a l IH]; intros k0 b s b' s' Hb Hbody Hrun.
  - cbn in Hrun. injection Hrun as <- <-. now rewrite Nat.add_0_r.
  - cbn [for_each] in Hrun.
    apply bind_ok_inv in Hrun. destruct Hrun as (b1 & s1 & Hstep & Hrest).
    cbn [length]. replace (k0 + S (length l)) with (S k0 + length l) by lia.
    apply (IH (S k0) b1 s1 b' s'); [| |exact Hrest].
    + specialize (Hbody 0 a b s b1 s1 eq_refl).
      rewrite Nat.add_0_r in Hbody. auto.
    + intros j a' b2 s2 b3 s3 Hj HI Hrun'.
      replace (S k0 + j) with (k0 + S j) in * by lia.
      now apply (Hbody (S j) a' b2 s2 b3 s3).
Qed.

(** A loop whose body always returns, returns. *)
Lemma for_each_total {St A B : Type} (body : A -> B -> M St B) (l : list A) :
  (forall a b s, In a l -> exists b' s', body a b s = Ok (b', s')) ->
  forall b s, exists b' s', for_each l b body s = Ok (b', s').
Proof.
  induction l as [|a l IH]; intros Hbody b s.
  - now exists b, s.
  - cbn [for_each].
    destruct (Hbody a b s (or_introl eq_refl)) as (b1 & s1 & Hstep).
    rewrite (bind_ok _ Hstep). apply IH.
    intros a' b2 s2 Hin. apply Hbody. now right.
Qed.

Lemma MLP_init_output_dim (n : Z) (i h o s s' : nat) (m : MLP.t) :
  MLP.__init__ n i h o s = Ok (m, s') -> MLP.output_dim m = o.
Proof.
  intros Hinit.
  destruct (Z_lt_le_dec n 1) as [Hlt|Hge].
  { rewrite MLP_init_rejects in Hinit by exact Hlt. discriminate. }
  destruct (Z.eq_dec n 1) as [->|Hne].
  - rewrite MLP_init_single in Hinit. now injection Hinit as <- _.
  - rewrite MLP_init_multi in Hinit by lia. now injection Hinit as <- _.
Qed.

Lemma nth_error_snoc {A : Type} (l : list A) (x y : A) (j : nat) :
  nth_error (l ++ [x]) j = Some y ->
  nth_error l j = Some y \/ (j = length l /\ y = x).
Proof.
  intros H. destruct (Nat.lt_ge_cases j (length l)) as [Hlt|Hge].
  - left. now rewrite nth_error_app1 in H.
  - right. rewrite nth_error_app2 in H by exact Hge.
    destruct (j - length l) as [|d] eqn:Hd; cbn in H.
    + split; [lia|congruence].
    + destruct d; discriminate.
Qed.

Lemma of_nat_eqb_0 (j : nat) : (Z.of_nat j =? 0)%Z = Nat.eqb j 0.
Proof. destruct j; reflexivity. Qed.

Lemma ApplyNodeFunc_init_eq (mlp : MLP.t) (s : nat) :
  ApplyNodeFunc.__init__ mlp s
  = Ok (ApplyNodeFunc.mk mlp (mkBatchNorm1d s (MLP.output_dim mlp)), S s).
Proof. reflexivity. Qed.

Lemma GINConv_init_rejects (f : ApplyNodeFunc.t) (name : string) (eps : Z)
  (le : bool) (s : nat) :
  recognised_aggregator name = false ->
  GINConv.__init__ f name eps le s
  = Raise (KeyError "Aggregator type not recognized.").
Proof.
  unfold recognised_aggregator, GINConv.__init__. intros H.
  destruct (name =? "sum")%string; [discriminate|].
  destruct (name =? "max")%string; [discriminate|].
  destruct (name =? "mean")%string; [discriminate|]. reflexivity.
Qed.

Lemma GINConv_init_accepts (f : ApplyNodeFunc.t) (name : string) (eps : Z)
  (le : bool) (s : nat) :
  recognised_aggregator name = true ->
  exists r, GINConv.__init__ f name eps le s
            = Ok (GINConv.mk f r s eps le, S s).
Proof.
  unfold recognised_aggregator, GINConv.__init__. intros H.
  destruct (name =? "sum")%string; [now exists fn_sum|].
  destruct (name =? "max")%string; [now exists fn_max|].
  destruct (name =? "mean")%string; [now exists fn_mean|]. discriminate.
Qed.

Lemma GINConv_init_inv (f : ApplyNodeFunc.t) (name : string) (eps : Z)
  (le : bool) (s s' : nat) (c : GINConv.t) :
  GINConv.__init__ f name eps le s = Ok (c, s') ->
  recognised_aggregator name = true /\ GINConv.apply_func c = f
  /\ GINConv.eps_id c = s /\ s' = S s.
Proof.
  intros H. destruct (recognised_aggregator name) eqn:Hr.
  - destruct (GINConv_init_accepts f name eps le s Hr) as (r & Heq).
    rewrite Heq in H. injection H as <- <-. now repeat split.
  - rewrite GINConv_init_rejects in H by exact Hr. discriminate.
Qed.

Lemma lin_ids_of_fresh (h o : nat) (l : list nat) :
  map lin_id (map (fun id => mkLinear id h o) l) = l.
Proof. rewrite map_map. cbn. apply map_id. Qed.

Lemma bn_ids_of_fresh (h : nat) (l : list nat) :
  map bn_id (map (fun id => mkBatchNorm1d id h) l) = l.
Proof. rewrite map_map. cbn. apply map_id. Qed.

(** The parameter blocks of an MLP are those [__init__] allocated. *)
Lemma MLP_init_ids (n : Z) (i h o s s' : nat) (m : MLP.t) :
  MLP.__init__ n i h o s = Ok (m, s') ->
  s <= s' /\ forall id, In id (MLP_param_ids m) -> s <= id < s'.
Proof.
  intros Hinit.
  destruct (Z_lt_le_dec n 1) as [Hlt|Hge].
  { rewrite MLP_init_rejects in Hinit by exact Hlt. discriminate. }
  destruct (Z.eq_dec n 1) as [->|Hne].
  - rewrite MLP_init_single in Hinit. injection Hinit as <- <-.
    split; [lia|]. intros id [<-|[]]. cbn. lia.
  - rewrite MLP_init_multi in Hinit by lia. injection Hinit as <- <-.
    split; [lia|]. intros id Hid.
    unfold MLP_param_ids in Hid.
    cbn [MLP.linear MLP.linears MLP.batch_norms app] in Hid.
    unfold mlp_hidden_linears, mlp_last_linear, mlp_batch_norms in Hid.
    cbn [map lin_id] in Hid.
    rewrite map_app, lin_ids_of_fresh, bn_ids_of_fresh in Hid.
    cbn [map lin_id] in Hid.
    apply in_app_iff in Hid. destruct Hid as [[<-|Hid]|Hid]; [lia| |].
    + apply in_app_iff in Hid.
      destruct Hid as [Hid|[<-|[]]]; [apply in_seq in Hid|]; lia.
    + apply in_seq in Hid. lia.
Qed.

Lemma conv_layer_step_inv (nml : Z) (ind hid : nat) (le : bool) (npt : string)
  (j : nat) (gl gl' : list GINConv.t) (bns bns' : list BatchNorm1d)
  (s s' : nat) :
  conv_layer_step nml ind hid le npt (Z.of_nat j) (gl, bns) s
  = Ok ((gl', bns'), s') ->
  exists c b,
    gl' = gl ++ [c] /\ bns' = bns ++ [b]
    /\ conv_built nml (rep_dim ind hid j) hid c
    /\ num_features b = hid
    /\ recognised_aggregator npt = true
    /\ s <= s'
    /\ (forall id, In id (conv_param_ids c) -> id < s')
    /\ bn_id b < s'.
Proof.
  unfold conv_layer_step. intros H.
  apply bind_ok_inv in H. destruct H as (mlp & s1 & Hmlp & H).
  rewrite of_nat_eqb_0 in Hmlp.
  assert (Hmlp' : MLP.__init__ nml (rep_dim ind hid j) hid hid s
                  = Ok (mlp, s1)).
  { unfold rep_dim. destruct (Nat.eqb j 0); exact Hmlp. }
  destruct (MLP_init_ids _ _ _ _ _ _ _ Hmlp') as [Hs1 Hids].
  apply bind_ok_inv in H. destruct H as (f & s2 & Hf & H).
  rewrite ApplyNodeFunc_init_eq in Hf. injection Hf as <- <-.
  apply bind_ok_inv in H. destruct H as (c & s3 & Hc & H).
  apply GINConv_init_inv in Hc. destruct Hc as (Hrec & Hfc & Heps & ->).
  apply bind_ok_inv in H. destruct H as (b & s4 & Hb & H).
  unfold BatchNorm1d_init, bind, fresh, ret in Hb. injection Hb as <- <-.
  unfold ret in H. injection H as <- <- <-.
  exists c, (mkBatchNorm1d (S (S s1)) hid).
  split; [reflexivity|]. split; [reflexivity|]. split.
  { split.
    - exists s, s1. rewrite Hfc. exact Hmlp'.
    - rewrite Hfc. cbn. eapply MLP_init_output_dim. exact Hmlp'. }
  split; [reflexivity|]. split; [exact Hrec|]. split; [lia|]. split.
  - intros id Hid. unfold conv_param_ids in Hid. rewrite Hfc, Heps in Hid.
    cbn [ApplyNodeFunc.mlp ApplyNodeFunc.bn bn_id] in Hid.
    apply in_app_iff in Hid. destruct Hid as [Hid|[<-|[<-|[]]]]; try lia.
    apply Hids in Hid. lia.
  - cbn. lia.
Qed.

(** One iteration of the second loop of [GIN.__init__] allocates the head
    of the layer. *)
Lemma head_step_eq (ind hid outd : nat) (j : nat) (lp : list Linear)
  (s : nat) :
  head_step ind hid outd (Z.of_nat j) lp s
  = Ok (lp ++ [mkLinear s (rep_dim ind hid j) outd], S s).
Proof.
  unfold head_step, rep_dim. rewrite of_nat_eqb_0.
  destruct (Nat.eqb j 0); reflexivity.
Qed.

(** [GIN.__init__] as the sequence of its four phases. *)
Lemma GIN_init_phases (nl nml : Z) (ind hid outd : nat) (p : Q) (le : bool)
  (gpt npt : string) :
  GIN.__init__ nl nml ind hid outd p le gpt npt
  = ('(ginlayers, batch_norms) <-
       for_each (range (nl - 1)) ([], [])
         (conv_layer_step nml ind hid le npt) ;;
     linears_prediction <-
       for_each (range nl) [] (head_step ind hid outd) ;;
     drop <- Dropout_init p ;;
     pool <- select_pool gpt ;;
     ret (GIN.mk nl le ginlayers batch_norms linears_prediction drop pool)).
Proof. reflexivity. Qed.

Lemma conv_loop_inv (nml : Z) (ind hid : nat) (le : bool) (npt : string)
  (n : Z) (gl : list GINConv.t) (bns : list BatchNorm1d) (s s' : nat) :
  for_each (range n) ([], []) (conv_layer_step nml ind hid le npt) s
  = Ok ((gl, bns), s') ->
  length gl = Z.to_nat n /\ length bns = Z.to_nat n
  /\ (forall j c, nth_error gl j = Some c ->
                  conv_built nml (rep_dim ind hid j) hid c)
  /\ (forall j b, nth_error bns j = Some b -> num_features b = hid)
  /\ (0 < Z.to_nat n -> recognised_aggregator npt = true)
  /\ (forall id, In id (flat_map conv_param_ids gl ++ map bn_id bns) ->
                 id < s').
Proof.
  intros Hrun.
  pose (I := fun (k : nat) (acc : list GINConv.t * list BatchNorm1d)
                 (st : nat) =>
               length (fst acc) = k /\ length (snd acc) = k
               /\ (forall j c, nth_error (fst acc) j = Some c ->
                               conv_built nml (rep_dim ind hid j) hid c)
               /\ (forall j b, nth_error (snd acc) j = Some b ->
                               num_features b = hid)
               /\ (0 < k -> recognised_aggregator npt = true)
               /\ (forall id,
                      In id (flat_map conv_param_ids (fst acc)
                             ++ map bn_id (snd acc)) ->
                      id < st)).
  assert (HI : I (0 + length (range n)) (gl, bns) s').
  { apply (for_each_inv I (conv_layer_step nml ind hid le npt) (range n) 0
             ([], []) s); [| |exact Hrun].
    - unfold I. cbn [fst snd length flat_map map app].
      refine (conj eq_refl (conj eq_refl (conj _ (conj _ (conj _ _))))).
      + intros [|j] c H; discriminate.
      + intros [|j] b H; discriminate.
      + lia.
      + intros id [].
    - intros j a [gl0 bns0] s0 [gl1 bns1] s1 Hj
        (Hlg & Hlb & Hc & Hb & _ & Hids) Hstep.
      apply nth_error_range in Hj. destruct Hj as [-> _]. cbn [Nat.add] in *.
      cbn [fst snd] in *.
      apply conv_layer_step_inv in Hstep.
      destruct Hstep
        as (c & b & -> & -> & Hcb & Hbf & Hrec & Hle & Hcid & Hbid).
      unfold I. cbn [fst snd]. rewrite !length_app. cbn [length].
      refine (conj _ (conj _ (conj _ (conj _ (conj _ _))))); try lia.
      + intros j' c' Hn. apply nth_error_snoc in Hn.
        destruct Hn as [Hn|[-> ->]]; [now apply Hc|]. now rewrite Hlg.
      + intros j' b' Hn. apply nth_error_snoc in Hn.
        destruct Hn as [Hn|[_ ->]]; [now apply (Hb j')|]. exact Hbf.
      + intros _. exact Hrec.
      + intros id Hid. rewrite flat_map_app, map_app in Hid.
        cbn [flat_map map] in Hid. rewrite app_nil_r in Hid.
        rewrite !in_app_iff in Hid. cbn [In] in Hid.
        destruct Hid as [[Hid|Hid]|[Hid|[<-|[]]]].
        * assert (id < s0) by (apply Hids, in_app_iff; now left). lia.
        * now apply Hcid.
        * assert (id < s0) by (apply Hids, in_app_iff; now right). lia.
        * exact Hbid. }
  rewrite length_range in HI. exact HI.
Qed.

Lemma head_loop_eq (ind hid outd : nat) (n : nat) :
  forall (k : nat) (lp : list Linear) (s : nat),
    for_each (map Z.of_nat (seq k n)) lp (head_step ind hid outd) s
    = Ok (lp ++ map (fun j => mkLinear (s + j) (rep_dim ind hid (k + j)) outd)
                  (seq 0 n),
          s + n).
Proof.
  induction n as [|n IH]; intros k lp s.
  - cbn. now rewrite app_nil_r, Nat.add_0_r.
  - cbn [seq map for_each]. rewrite (bind_ok _ (head_step_eq ind hid outd k lp s)).
    rewrite IH. rewrite <- app_assoc. cbn [app]. rewrite !Nat.add_0_r.
    f_equal. f_equal; [|lia]. f_equal. f_equal.
    rewrite <- seq_shift, map_map. apply map_ext. intros j.
    f_equal; [lia|f_equal; lia].
Qed.

Lemma map_add_seq (s n : nat) :
  forall a, map (fun j => s + j) (seq a n) = seq (s + a) n.
Proof.
  induction n as [|n IH]; intros a; cbn; [reflexivity|].
  f_equal. rewrite IH. f_equal. lia.
Qed.

(** What a successful run of [GIN.__init__] went through. *)
Lemma GIN_init_inv (nl nml : Z) (ind hid outd : nat) (p : Q) (le : bool)
  (gpt npt : string) (s s' : nat) (m : GIN.t) :
  GIN.__init__ nl nml ind hid outd p le gpt npt s = Ok (m, s') ->
  exists gl bns s1 pl,
    for_each (range (nl - 1)) ([], []) (conv_layer_step nml ind hid le npt) s
    = Ok ((gl, bns), s1)
    /\ Dropout_init p (s1 + Z.to_nat nl) = Ok (mkDropout p, s1 + Z.to_nat nl)
    /\ select_pool gpt (s1 + Z.to_nat nl) = Ok (pl, s1 + Z.to_nat nl)
    /\ m = GIN.mk nl le gl bns (built_heads_at nl ind hid outd s1)
             (mkDropout p) pl.
Proof.
  rewrite GIN_init_phases. intros H.
  apply bind_ok_inv in H. destruct H as ([gl bns] & s1 & Hconvs & H).
  unfold range at 1 in H. rewrite (bind_ok _ (head_loop_eq _ _ _ _ _ _ _)) in H.
  cbn [app] in H.
  apply bind_ok_inv in H. destruct H as (d & s3 & Hdrop & H).
  assert (Hd : d = mkDropout p /\ s3 = s1 + Z.to_nat nl).
  { unfold Dropout_init in Hdrop.
    destruct (Qle_bool 0 p && Qle_bool p 1); [|discriminate].
    unfold ret in Hdrop. injection Hdrop as <- <-. now split. }
  destruct Hd as [-> ->].
  apply bind_ok_inv in H. destruct H as (pl & s4 & Hpool & H).
  assert (Hs4 : s4 = s1 + Z.to_nat nl).
  { unfold select_pool, ret, raise in Hpool.
    repeat match type of Hpool with
           | (if ?b then _ else _) _ = _ => destruct b
           end; try discriminate; now injection Hpool as _ <-. }
  subst s4. unfold ret in H. injection H as <- _.
  exists gl, bns, s1, pl. repeat split; assumption.
Qed.

Lemma GIN_init_built (nl nml : Z) (ind hid outd : nat) (p : Q) (le : bool)
  (gpt npt : string) (s s' : nat) (m : GIN.t) :
  GIN.__init__ nl nml ind hid outd p le gpt npt s = Ok (m, s') ->
  GIN_built nl nml ind hid outd m.
Proof.
  intros H. apply GIN_init_inv in H.
  destruct H as (gl & bns & s1 & pl & Hconvs & _ & _ & ->).
  apply conv_loop_inv in Hconvs.
  destruct Hconvs as (Hlg & Hlb & Hc & Hb & _ & Hids).
  constructor; cbn [GIN.num_layers GIN.ginlayers GIN.batch_norms
                      GIN.linears_prediction]; auto.
  - unfold built_heads_at. now rewrite length_map, length_seq.
  - intros j l Hj. unfold built_heads_at in Hj.
    assert (Hlt : j < Z.to_nat nl).
    { assert (Hlt : j < length (map (fun j => mkLinear (s1 + j)
                                        (rep_dim ind hid j) outd)
                                  (seq 0 (Z.to_nat nl))))
        by (apply nth_error_Some; congruence).
      now rewrite length_map, length_seq in Hlt. }
    rewrite nth_error_map, (nth_error_nth' _ 0) in Hj by now rewrite length_seq.
    rewrite seq_nth in Hj by exact Hlt. cbn in Hj. injection Hj as <-.
    now split.
  - unfold built_heads_at. rewrite map_map. cbn [lin_id].
    rewrite map_add_seq. apply seq_NoDup.
  - intros l Hl Hin. unfold built_heads_at in Hl.
    apply in_map_iff in Hl. destruct Hl as (j & <- & _).
    apply Hids in Hin. cbn [lin_id] in Hin. lia.
Qed.

Lemma nth_error_in_bounds {A : Type} (l : list A) (j : nat) :
  j < length l -> exists a, nth_error l j = Some a.
Proof.
  intros H. destruct (nth_error l j) as [a|] eqn:Hn; [now exists a|].
  apply nth_error_None in Hn. lia.
Qed.


(** * The forward passes against their specifications *)
Section Refine.
Context {F : Framework}.

(** The indexed loop of [MLP.forward] walks the two module lists in step. *)
Lemma MLP_loop_hidden_stack (self : MLP.t) (ls : list Linear)
  (bns : list BatchNorm1d) :
  MLP.linears self = Some ls ->
  MLP.batch_norms self = Some bns ->
  forall (layers : list (Linear * BatchNorm1d)) (k : nat) (h : Tensor)
         (w : World),
    (forall j lin bn, nth_error layers j = Some (lin, bn) ->
       nth_error ls (k + j) = Some lin /\ nth_error bns (k + j) = Some bn) ->
    for_each (map Z.of_nat (seq k (length layers))) h
      (fun i h =>
         batch_norms <- getattr (MLP.batch_norms self) ;;
         bn <- ModuleList_getitem batch_norms i ;;
         linears <- getattr (MLP.linears self) ;;
         lin <- ModuleList_getitem linears i ;;
         a <- lift (linear_fwd lin h) ;;
         b <- lift (batch_norm_fwd bn a) ;;
         lift (relu_fwd b)) w
    = hidden_stack layers h w.
Proof.
  intros Hls Hbns layers.
  set (body := fun (i : Z) (h : Tensor) => _).
  induction layers as [|[lin bn] rest IH]; intros k h w Hnth.
  - reflexivity.
  - cbn [length seq map for_each hidden_stack].
    destruct (Hnth 0 lin bn eq_refl) as [Hl Hb].
    rewrite Nat.add_0_r in Hl, Hb.
    assert (Hbody : body (Z.of_nat k) h w
                    = (a <- lift (linear_fwd lin h) ;;
                       b <- lift (batch_norm_fwd bn a) ;;
                       lift (relu_fwd b)) w).
    { unfold body. rewrite Hls, Hbns. cbn [getattr]. unfold bind, ret.
      rewrite (ModuleList_getitem_nth _ Hb).
      rewrite (ModuleList_getitem_nth _ Hl). reflexivity. }
    unfold bind at 1. rewrite Hbody. unfold bind.
    destruct (lift (linear_fwd lin h) w) as [[a w1]|e]; [|reflexivity].
    destruct (lift (batch_norm_fwd bn a) w1) as [[b w2]|e]; [|reflexivity].
    destruct (lift (relu_fwd b) w2) as [[r w3]|e]; [|reflexivity].
    apply IH. intros j lin' bn' Hj.
    replace (S k + j) with (k + S j) by lia. now apply Hnth.
Qed.

(** On an MLP of two layers or more built by [__init__], [forward] is the
    perceptron over the constructed layers: no index or attribute fails. *)
Lemma MLP_forward_multi {n : Z} {i h o s s' : nat} {m : MLP.t} :
  (2 <= n)%Z ->
  MLP.__init__ n i h o s = Ok (m, s') ->
  let k := Z.to_nat (n - 2) in
  forall x w,
    MLP.forward m x w
    = perceptron (combine (mlp_hidden_linears k i h s) (mlp_batch_norms k h s))
        (mlp_last_linear k h o s) x w.
Proof.
  intros Hn Hinit k x w.
  rewrite (MLP_init_multi n i h o s Hn) in Hinit. fold k in Hinit.
  injection Hinit as <- _.
  unfold MLP.forward, perceptron.
  cbn [MLP.linear_or_not MLP.num_layers].
  assert (Hlen : length (combine (mlp_hidden_linears k i h s)
                           (mlp_batch_norms k h s)) = S k).
  { rewrite length_combine, length_mlp_hidden_linears,
      length_mlp_batch_norms. lia. }
  replace (range (n - 1)) with
    (map Z.of_nat (seq 0 (length (combine (mlp_hidden_linears k i h s)
                                    (mlp_batch_norms k h s))))).
  2:{ rewrite Hlen. unfold range. f_equal. f_equal. lia. }
  unfold bind at 1.
  erewrite (MLP_loop_hidden_stack (MLP.mk false n o None _ _));
    [| reflexivity | reflexivity |].
  - unfold bind.
    destruct (hidden_stack _ x w) as [[y w1]|e]; [|reflexivity].
    unfold MLP.linears, getattr, ret.
    change (ModuleList_getitem _ (-1)%Z w1) with
      (ModuleList_getitem
         (mlp_hidden_linears k i h s ++ [mlp_last_linear k h o s]) (-1)%Z w1).
    rewrite ModuleList_getitem_last. reflexivity.
  - intros j lin bn Hj. cbn [Nat.add].
    apply nth_error_combine_inv in Hj. destruct Hj as [Hl Hb]. split; [|exact Hb].
    change (nth_error (mlp_hidden_linears k i h s ++ [mlp_last_linear k h o s])
              j = Some lin).
    rewrite nth_error_app1; [exact Hl|].
    apply nth_error_Some. congruence.
Qed.

(** On an MLP of one layer built by [__init__], [forward] is the linear map. *)
Lemma MLP_forward_single {i h o s s' : nat} {m : MLP.t} :
  MLP.__init__ 1 i h o s = Ok (m, s') ->
  forall x w, MLP.forward m x w = lift (linear_fwd (mkLinear s i o) x) w.
Proof.
  intros Hinit x w. rewrite MLP_init_single in Hinit.
  injection Hinit as <- _. reflexivity.
Qed.






End Refine.

(** * Typing the forward passes

    The forward passes are analysed once, against contracts of the kernels
    stated over an abstract typing [ty] of tensors, an abstract set [E] of
    tolerated exceptions and an abstract set [rows_ok] of batch sizes. *)
Section Typed.
Context {F : Framework}.
Variable E : exn -> Prop.
Variable ty : Tensor -> list nat -> Prop.
Variable rows_ok : nat -> Prop.
Hypothesis linear_contract : forall l x n,
  ty x [n; in_features l] ->
  triple E (lift (linear_fwd l x)) (fun y => ty y [n; out_features l]).
Hypothesis batch_norm_contract : forall b x n,
  rows_ok n -> ty x [n; num_features b] ->
  triple E (lift (batch_norm_fwd b x)) (fun y => ty y [n; num_features b]).
Hypothesis relu_contract : forall x s,
  ty x s -> triple E (lift (relu_fwd x)) (fun y => ty y s).
Hypothesis dropout_contract : forall d x s,
  ty x s -> triple E (lift (dropout_fwd d x)) (fun y => ty y s).
Hypothesis pool_contract : forall p g x d,
  ty x [num_nodes g; d] ->
  triple E (lift (pool_fwd p g x)) (fun y => ty y [batch_size g; d]).
Hypothesis aggregate_contract : forall r e g x d,
  ty x [num_nodes g; d] ->
  triple E (lift (gin_aggregate r e g x)) (fun y => ty y [num_nodes g; d]).
Hypothesis add_contract : forall a b s,
  ty a s -> ty b s -> triple E (lift (tensor_add a b)) (fun y => ty y s).
Hypothesis radd_contract : forall z x s,
  ty x s -> triple E (lift (scalar_radd z x)) (fun y => ty y s).

Lemma hidden_layer_typed {lin : Linear} {bn : BatchNorm1d} {r : nat}
  {x : Tensor} :
  rows_ok r -> num_features bn = out_features lin ->
  ty x [r; in_features lin] ->
  triple E (a <- lift (linear_fwd lin x) ;;
            b <- lift (batch_norm_fwd bn a) ;;
            lift (relu_fwd b))
    (fun y => ty y [r; out_features lin]).
Proof.
  intros Hr Hbn Hx.
  eapply triple_bind; [apply linear_contract; exact Hx|].
  intros a Ha. cbv beta in Ha.
  eapply triple_bind.
  { apply batch_norm_contract; [exact Hr|]. rewrite Hbn. exact Ha. }
  intros b Hb. cbv beta in Hb. rewrite Hbn in Hb.
  now apply relu_contract.
Qed.

Lemma hidden_stack_typed {d r : nat} :
  rows_ok r ->
  forall layers x,
    Forall (fun layer => layer_dims layer = (d, d, d)) layers ->
    ty x [r; d] ->
    triple E (hidden_stack layers x) (fun y => ty y [r; d]).
Proof.
  intros Hr. induction layers as [|[lin bn] rest IH]; intros x Hall Hx.
  - now apply triple_ret.
  - inversion Hall as [|? ? Hd Hrest]; subst.
    unfold layer_dims in Hd. cbn in Hd. injection Hd as Hin Hout Hbn.
    cbn [hidden_stack].
    assert (Hstep := @hidden_layer_typed lin bn r x Hr).
    rewrite Hin, Hout in Hstep. specialize (Hstep Hbn Hx).
    intros w. specialize (Hstep w). unfold bind in *.
    destruct (lift (linear_fwd lin x) w) as [[a w1]|e]; [|exact Hstep].
    destruct (lift (batch_norm_fwd bn a) w1) as [[b w2]|e]; [|exact Hstep].
    destruct (lift (relu_fwd b) w2) as [[y w3]|e]; [|exact Hstep].
    apply (IH y Hrest Hstep w3).
Qed.

(** The forward pass of an MLP built by [__init__] maps [r] rows of width
    input_dim to [r] rows of width output_dim. *)
Lemma MLP_forward_typed {n : Z} {i h o s s' : nat} {m : MLP.t} {r : nat}
  {x : Tensor} :
  MLP.__init__ n i h o s = Ok (m, s') ->
  rows_ok r -> ty x [r; i] ->
  triple E (MLP.forward m x) (fun y => ty y [r; o]).
Proof.
  intros Hinit Hr Hx.
  destruct (Z_lt_le_dec n 1) as [Hlt|Hge].
  { rewrite MLP_init_rejects in Hinit by exact Hlt. discriminate. }
  destruct (Z.eq_dec n 1) as [->|Hne].
  - intros w. rewrite (MLP_forward_single Hinit).
    apply (linear_contract (mkLinear s i o) x r Hx).
  - assert (Hn : (2 <= n)%Z) by lia.
    intros w. rewrite (MLP_forward_multi Hn Hinit).
    set (k := Z.to_nat (n - 2)).
    pose proof (mlp_hidden_dims k i h s) as Hdims.
    destruct (combine (mlp_hidden_linears k i h s) (mlp_batch_norms k h s))
      as [|[lin bn] rest]; [discriminate|].
    cbn [map] in Hdims. injection Hdims as Hin Hout Hbn Hrest.
    unfold layer_dims in Hin, Hout, Hbn. cbn in Hin, Hout, Hbn.
    assert (Hall : Forall (fun layer => layer_dims layer = (h, h, h)) rest).
    { apply Forall_forall. intros p Hp.
      apply (in_map layer_dims) in Hp. rewrite Hrest in Hp.
      now apply repeat_spec in Hp. }
    revert w. unfold perceptron. cbn [hidden_stack].
    assert (Hx' : ty x [r; in_features lin]) by now rewrite Hin.
    assert (Hbn' : num_features bn = out_features lin) by congruence.
    pose proof (hidden_layer_typed Hr Hbn' Hx') as Hstep.
    rewrite Hout in Hstep.
    intros w. specialize (Hstep w). unfold bind in *.
    destruct (lift (linear_fwd lin x) w) as [[a w1]|e]; [|exact Hstep].
    destruct (lift (batch_norm_fwd bn a) w1) as [[b w2]|e]; [|exact Hstep].
    destruct (lift (relu_fwd b) w2) as [[y w3]|e]; [|exact Hstep].
    pose proof (hidden_stack_typed Hr rest y Hall Hstep w3) as Hstack.
    destruct (hidden_stack rest y w3) as [[z w4]|e]; [|exact Hstack].
    apply (linear_contract (mlp_last_linear k h o s) z r Hstack).
Qed.

Lemma GINConv_forward_typed {nml : Z} {din hid : nat} {c : GINConv.t}
  (g : DGLGraph) (x : Tensor) :
  conv_built nml din hid c ->
  rows_ok (num_nodes g) -> ty x [num_nodes g; din] ->
  triple E (GINConv.forward c g x) (fun y => ty y [num_nodes g; hid]).
Proof.
  intros [(s & s' & Hmlp) Hbn] Hr Hx. unfold GINConv.forward.
  eapply triple_bind; [apply aggregate_contract; exact Hx|].
  intros rst Hrst. cbv beta in Hrst. unfold ApplyNodeFunc.forward.
  eapply triple_bind; [apply (MLP_forward_typed Hmlp Hr Hrst)|].
  intros a Ha. cbv beta in Ha.
  eapply triple_bind.
  { apply batch_norm_contract; [exact Hr|]. rewrite Hbn. exact Ha. }
  intros b Hb. cbv beta in Hb. rewrite Hbn in Hb.
  now apply relu_contract.
Qed.

(** The first loop of [GIN.forward]: one representation per layer, the
    input first, each with as many rows as the graph has nodes. *)
Lemma hidden_rep_typed {nl nml : Z} {ind hid outd : nat} {m : GIN.t}
  (g : DGLGraph) (h : Tensor) :
  GIN_built nl nml ind hid outd m ->
  (0 < Z.to_nat (nl - 1) -> rows_ok (num_nodes g)) ->
  ty h [num_nodes g; ind] ->
  triple E (GIN.hidden_rep m g h)
    (fun hs => length hs = S (Z.to_nat (nl - 1))
               /\ forall j x, nth_error hs j = Some x ->
                              ty x [num_nodes g; rep_dim ind hid j]).
Proof.
  intros B Hr Hh. unfold GIN.hidden_rep.
  pose (I := fun (k : nat) (acc : Tensor * list Tensor) =>
               ty (fst acc) [num_nodes g; rep_dim ind hid k]
               /\ length (snd acc) = S k
               /\ forall j x, nth_error (snd acc) j = Some x ->
                              ty x [num_nodes g; rep_dim ind hid j]).
  apply triple_bind with (P := I (0 + length (range (GIN.num_layers m - 1)))).
  - apply triple_for_each.
    + unfold I. cbn [fst snd length]. split; [exact Hh|]. split; [reflexivity|].
      intros [|[|j]] x Hj; cbn in Hj; try discriminate.
      injection Hj as <-. exact Hh.
    + intros j a [h0 hs0] Hj (Hh0 & Hlen & Hall). cbn [Nat.add fst snd] in *.
      apply nth_error_range in Hj. destruct Hj as [-> Hj].
      rewrite (built_num_layers B) in Hj.
      destruct (nth_error_in_bounds (GIN.ginlayers m) j) as [c Hc];
        [rewrite (built_ginlayers B); exact Hj|].
      destruct (nth_error_in_bounds (GIN.batch_norms m) j) as [bn Hbn];
        [rewrite (built_batch_norms B); exact Hj|].
      assert (Hrows : rows_ok (num_nodes g)) by (apply Hr; lia).
      eapply triple_bind; [apply (triple_getitem E _ _ _ Hc)|].
      intros c' <-.
      eapply triple_bind;
        [apply (GINConv_forward_typed g h0 (built_conv B j Hc) Hrows Hh0)|].
      intros h1 Hh1. cbv beta in Hh1.
      eapply triple_bind; [apply (triple_getitem E _ _ _ Hbn)|].
      intros bn' <-.
      pose proof (built_batch_norm B j Hbn) as Hf.
      eapply triple_bind.
      { apply batch_norm_contract; [exact Hrows|]. rewrite Hf. exact Hh1. }
      intros h2 Hh2. cbv beta in Hh2. rewrite Hf in Hh2.
      eapply triple_bind; [apply relu_contract; exact Hh2|].
      intros h3 Hh3. cbv beta in Hh3.
      apply triple_ret. unfold I. cbn [fst snd].
      assert (Hd : rep_dim ind hid (S j) = hid) by reflexivity.
      rewrite Hd, length_app. cbn [length].
      split; [exact Hh3|]. split; [lia|].
      intros j' x Hj'. apply nth_error_snoc in Hj'.
      destruct Hj' as [Hj'|[-> ->]]; [now apply Hall|].
      rewrite Hlen, Hd. exact Hh3.
  - intros [h' hs] (_ & Hlen & Hall). cbn [fst snd] in *.
    apply triple_ret. split; [|exact Hall].
    rewrite Hlen, length_range, (built_num_layers B). reflexivity.
Qed.

(** [score_over_layer += x] keeps the type of the prediction. *)
Lemma iadd_typed (acc : GIN.score) (x : Tensor) (s : list nat) :
  match acc with
  | GIN.PyInt _ => True
  | GIN.PyTensor a => ty a s
  end ->
  ty x s ->
  triple E (GIN.iadd acc x)
    (fun r => exists t, r = GIN.PyTensor t /\ ty t s).
Proof.
  intros Hacc Hx. destruct acc as [z|a]; cbn [GIN.iadd].
  - eapply triple_bind; [apply radd_contract; exact Hx|].
    intros y Hy. apply triple_ret. now exists y.
  - eapply triple_bind; [apply add_contract; [exact Hacc|exact Hx]|].
    intros y Hy. apply triple_ret. now exists y.
Qed.

(** The second loop of [GIN.forward]: every index into
    [linears_prediction] is in bounds and the prediction has one row per
    graph. *)
Lemma score_over_layer_typed {nl nml : Z} {ind hid outd : nat} {m : GIN.t}
  (g : DGLGraph) (hs : list Tensor) :
  GIN_built nl nml ind hid outd m ->
  0 < length hs <= Z.to_nat nl ->
  (forall j x, nth_error hs j = Some x ->
               ty x [num_nodes g; rep_dim ind hid j]) ->
  triple E (GIN.score_over_layer m g hs)
    (fun r => exists t, r = GIN.PyTensor t /\ ty t [batch_size g; outd]).
Proof.
  intros B Hlen Hall. unfold GIN.score_over_layer.
  pose (I := fun (k : nat) (acc : GIN.score) =>
               match acc with
               | GIN.PyInt _ => k = 0
               | GIN.PyTensor t => ty t [batch_size g; outd]
               end).
  apply triple_weaken with (P := I (0 + length (enumerate hs))).
  - apply triple_for_each; [reflexivity|].
    intros j [i x] acc Hj Hacc. cbn [Nat.add] in *.
    apply nth_error_enumerate_from in Hj. destruct Hj as [-> Hx].
    cbn [Z.add].
    assert (Hjlt : j < length hs) by (apply nth_error_Some; congruence).
    destruct (nth_error_in_bounds (GIN.linears_prediction m) j) as [lin Hlin];
      [rewrite (built_heads B); lia|].
    destruct (built_head B j Hlin) as [Hin Hout].
    eapply triple_bind; [apply pool_contract; exact (Hall j x Hx)|].
    intros pooled Hp. cbv beta in Hp.
    eapply triple_bind; [apply (triple_getitem E _ _ _ Hlin)|].
    intros lin' <-.
    eapply triple_bind.
    { apply linear_contract. rewrite Hin. exact Hp. }
    intros y Hy. cbv beta in Hy. rewrite Hout in Hy.
    eapply triple_bind; [apply dropout_contract; exact Hy|].
    intros d Hd. cbv beta in Hd.
    eapply triple_weaken.
    { apply (iadd_typed acc d [batch_size g; outd]); [|exact Hd].
      destruct acc; [exact Logic.I|exact Hacc]. }
    intros r (t & -> & Ht). exact Ht.
  - intros [z|t] HI; unfold I in HI; cbn [Nat.add] in HI.
    + unfold enumerate in HI. rewrite length_enumerate_from in HI. lia.
    + now exists t.
Qed.

(** The forward pass of a constructed GIN with at least one layer. *)
Lemma GIN_forward_typed {nl nml : Z} {ind hid outd : nat} {m : GIN.t}
  (g : DGLGraph) (h : Tensor) :
  GIN_built nl nml ind hid outd m ->
  (1 <= nl)%Z ->
  ((2 <= nl)%Z -> rows_ok (num_nodes g)) ->
  ty h [num_nodes g; ind] ->
  triple E (GIN.forward m g h)
    (fun r => exists t, r = GIN.PyTensor t /\ ty t [batch_size g; outd]).
Proof.
  intros B Hnl Hr Hh. unfold GIN.forward.
  eapply triple_bind.
  { apply (hidden_rep_typed g h B); [|exact Hh]. intros H. apply Hr. lia. }
  intros hs [Hlen Hall]. cbv beta in *.
  apply (score_over_layer_typed g hs B); [lia|exact Hall].
Qed.

End Typed.

(** * Totality of the constructors *)

Lemma MLP_init_total (n : Z) (i h o s : nat) :
  (1 <= n)%Z -> exists m s', MLP.__init__ n i h o s = Ok (m, s').
Proof.
  intros Hn. destruct (Z.eq_dec n 1) as [->|Hne].
  - rewrite MLP_init_single. eauto.
  - rewrite MLP_init_multi by lia. eauto.
Qed.

Lemma conv_layer_step_total (nml : Z) (ind hid : nat) (le : bool)
  (npt : string) (layer : Z) (acc : list GINConv.t * list BatchNorm1d)
  (s : nat) :
  (1 <= nml)%Z -> recognised_aggregator npt = true ->
  exists acc' s', conv_layer_step nml ind hid le npt layer acc s
                  = Ok (acc', s').
Proof.
  intros Hnml Hrec. destruct acc as [gl bns]. unfold conv_layer_step.
  assert (Hmlp : exists mlp s1,
             (if (layer =? 0)%Z
              then MLP.__init__ nml ind hid hid
              else MLP.__init__ nml hid hid hid) s = Ok (mlp, s1)).
  { destruct (layer =? 0)%Z; now apply MLP_init_total. }
  destruct Hmlp as (mlp & s1 & Hmlp). rewrite (bind_ok _ Hmlp).
  rewrite (bind_ok _ (ApplyNodeFunc_init_eq mlp s1)).
  destruct (GINConv_init_accepts
              (ApplyNodeFunc.mk mlp (mkBatchNorm1d s1 (MLP.output_dim mlp)))
              npt 0 le (S s1) Hrec) as (r & Hconv).
  rewrite (bind_ok _ Hconv). do 2 eexists. reflexivity.
Qed.

(** With constructible layers, [__init__] builds them and the heads and
    reaches the construction of the dropout. *)
Lemma GIN_init_after_layers (nl nml : Z) (ind hid outd : nat) (p : Q)
  (le : bool) (gpt npt : string) (s : nat) :
  layers_constructible nl nml npt ->
  exists gl bns s1,
    GIN.__init__ nl nml ind hid outd p le gpt npt s
    = (drop <- Dropout_init p ;;
       pool <- select_pool gpt ;;
       ret (GIN.mk nl le gl bns (built_heads_at nl ind hid outd s1) drop pool))
        (s1 + Z.to_nat nl).
Proof.
  intros Hlayers. rewrite GIN_init_phases.
  destruct (for_each_total (conv_layer_step nml ind hid le npt)
              (range (nl - 1))) with (b := ([] : list GINConv.t,
                                            [] : list BatchNorm1d)) (s := s)
    as ([gl bns] & s1 & Hconvs).
  { intros a acc s0 Hin. apply In_nth_error in Hin. destruct Hin as [j Hj].
    apply nth_error_range in Hj.
    destruct Hlayers as [Hnml Hrec]; [lia|].
    now apply conv_layer_step_total. }
  exists gl, bns, s1. rewrite (bind_ok _ Hconvs).
  unfold range at 1. rewrite (bind_ok _ (head_loop_eq _ _ _ _ _ _ _)).
  reflexivity.
Qed.

Lemma range_first (n : Z) :
  (1 <= n)%Z -> exists rest, range n = 0%Z :: rest.
Proof.
  intros Hn. unfold range.
  destruct (Z.to_nat n) as [|k] eqn:Hk; [lia|].
  cbn [seq map]. eauto.
Qed.

(** With a graph convolution to build, its MLP is built first: a layer
    count below one is rejected there. *)
Lemma GIN_init_layer_count_error (nl nml : Z) (ind hid outd : nat) (p : Q)
  (le : bool) (gpt npt : string) (s : nat) :
  (2 <= nl)%Z -> (nml < 1)%Z ->
  GIN.__init__ nl nml ind hid outd p le gpt npt s
  = Raise (ValueError "number of layers should be positive!").
Proof.
  intros Hnl Hnml. rewrite GIN_init_phases.
  destruct (range_first (nl - 1)) as [rest ->]; [lia|].
  apply bind_raise. cbn [for_each]. apply bind_raise.
  unfold conv_layer_step. apply bind_raise. cbn [Z.eqb].
  now apply MLP_init_rejects.
Qed.

(** With a graph convolution to build and its MLP built, an unknown
    aggregator is rejected by [GINConv]. *)
Lemma GIN_init_aggregator_error (nl nml : Z) (ind hid outd : nat) (p : Q)
  (le : bool) (gpt npt : string) (s : nat) :
  (2 <= nl)%Z -> (1 <= nml)%Z -> recognised_aggregator npt = false ->
  GIN.__init__ nl nml ind hid outd p le gpt npt s
  = Raise (KeyError "Aggregator type not recognized.").
Proof.
  intros Hnl Hnml Hrec. rewrite GIN_init_phases.
  destruct (range_first (nl - 1)) as [rest ->]; [lia|].
  apply bind_raise. cbn [for_each]. apply bind_raise.
  unfold conv_layer_step. cbn [Z.eqb].
  destruct (MLP_init_total nml ind hid hid s Hnml) as (mlp & s1 & Hmlp).
  rewrite (bind_ok _ Hmlp), (bind_ok _ (ApplyNodeFunc_init_eq mlp s1)).
  apply bind_raise. now apply GINConv_init_rejects.
Qed.

Lemma recognised_aggregator_false (name : string) :
  name <> "sum"%string -> name <> "mean"%string -> name <> "max"%string ->
  recognised_aggregator name = false.
Proof.
  intros H1 H2 H3. unfold recognised_aggregator.
  apply String.eqb_neq in H1, H2, H3. now rewrite H1, H2, H3.
Qed.

(** The four ways the selection of the readout ends. *)
Lemma select_pool_cases (name : string) (s : nat) :
  (name = "sum"%string /\ select_pool name s = Ok (SumPooling, s))
  \/ (name = "mean"%string /\ select_pool name s = Ok (AvgPooling, s))
  \/ (name = "max"%string /\ select_pool name s = Ok (MaxPooling, s))
  \/ (name <> "sum"%string /\ name <> "mean"%string /\ name <> "max"%string
      /\ select_pool name s = Raise NotImplementedError).
Proof.
  unfold select_pool.
  destruct (String.eqb_spec name "sum") as [->|H1]; [now left|].
  destruct (String.eqb_spec name "mean") as [->|H2]; [now right; left|].
  destruct (String.eqb_spec name "max") as [->|H3]; [now right; right; left|].
  now right; right; right.
Qed.

(** * The reference framework satisfies the shape laws *)

Lemma shape_eqb_eq {a b : list nat} :
  a = b -> ShapeOnly.shape_eqb a b = true.
Proof.
  intros <-. induction a as [|x a IH]; cbn; [reflexivity|].
  now rewrite Nat.eqb_refl, IH.
Qed.

Lemma ShapeOnly_laws : ShapeLaws ShapeOnly.framework.
Proof.
  constructor.
  - intros l x n Hx w. change (x = [n; in_features l]) in Hx. subst x.
    change (exists y w', ShapeOnly.linear l [n; in_features l] w = Some (y, w')
                         /\ y = [n; out_features l]).
    unfold ShapeOnly.linear. rewrite Nat.eqb_refl. eauto.
  - intros b x n Hn Hx w. change (x = [n; num_features b]) in Hx. subst x.
    change (Nat.leb 2 n = true) in Hn.
    change (exists y w',
               ShapeOnly.batch_norm b [n; num_features b] w = Some (y, w')
               /\ y = [n; num_features b]).
    unfold ShapeOnly.batch_norm, ShapeOnly.rows_to.
    rewrite Nat.eqb_refl, Hn. cbn [andb]. eauto.
  - intros x w. exists x, w. split; reflexivity.
  - intros d x w. exists x, w. split; reflexivity.
  - intros p g x d Hx w. change (x = [fst g; d]) in Hx. subst x.
    change (exists y w', ShapeOnly.readout g [fst g; d] w = Some (y, w')
                         /\ y = [snd g; d]).
    unfold ShapeOnly.readout, ShapeOnly.rows_to.
    rewrite Nat.eqb_refl. eauto.
  - intros r e g x d Hx w. change (x = [fst g; d]) in Hx. subst x.
    change (exists y w', ShapeOnly.aggregate g [fst g; d] w = Some (y, w')
                         /\ y = [fst g; d]).
    unfold ShapeOnly.aggregate, ShapeOnly.rows_to.
    rewrite Nat.eqb_refl. eauto.
  - intros a b Hab w. change (a = b) in Hab.
    change (exists y w', ShapeOnly.add a b w = Some (y, w') /\ y = a).
    unfold ShapeOnly.add. rewrite (shape_eqb_eq Hab). eauto.
  - intros z x w. exists x, w. split; reflexivity.
Qed.

(** * The two readings of the typed analysis *)

Lemma yields_triple {F : Framework} (k : kernel World Tensor) (s : list nat) :
  yields k s ->
  triple (fun _ => False) (lift k) (fun y => shape y = s).
Proof.
  intros H w. unfold lift. destruct (H w) as (y & w' & -> & Hy). exact Hy.
Qed.

Lemma lift_raises_framework_error {F : Framework} {T : Type}
  (k : kernel World T) :
  triple (eq FrameworkError) (lift k) (fun _ => True).
Proof. intros w. unfold lift. destruct (k w) as [[y w']|]; auto. Qed.

(** Under the shape laws the forward pass returns, with the shape of the
    prediction. *)
Lemma GIN_forward_total {F : Framework} {L : ShapeLaws F} {nl nml : Z}
  {ind hid outd : nat} {m : GIN.t} (g : DGLGraph) (h : Tensor) :
  GIN_built nl nml ind hid outd m ->
  (1 <= nl)%Z ->
  ((2 <= nl)%Z -> batch_norm_accepts (num_nodes g) = true) ->
  shape h = [num_nodes g; ind] ->
  triple (fun _ => False) (GIN.forward m g h)
    (fun r => exists t, r = GIN.PyTensor t /\ shape t = [batch_size g; outd]).
Proof.
  apply (GIN_forward_typed (fun _ => False) (fun x s => shape x = s)
           (fun n => batch_norm_accepts n = true)).
  - intros l x n Hx. now apply yields_triple, linear_shape.
  - intros b x n Hn Hx. now apply yields_triple, batch_norm_shape.
  - intros x s <-. apply yields_triple, relu_shape.
  - intros d x s <-. apply yields_triple, dropout_shape.
  - intros p g' x d Hx. now apply yields_triple, pool_shape.
  - intros r e g' x d Hx. now apply yields_triple, aggregate_shape.
  - intros a b s <- Hb. apply yields_triple, add_shape. now symmetry.
  - intros z x s <-. apply yields_triple, radd_shape.
Qed.

(** With no assumption on the kernels, the forward pass raises nothing but
    what a kernel raises. *)
Lemma GIN_forward_safe {F : Framework} {nl nml : Z} {ind hid outd : nat}
  {m : GIN.t} (g : DGLGraph) (h : Tensor) :
  GIN_built nl nml ind hid outd m ->
  (1 <= nl)%Z ->
  triple (eq FrameworkError) (GIN.forward m g h) (fun _ => True).
Proof.
  intros B Hnl.
  assert (H : GIN_built nl nml ind hid outd m -> (1 <= nl)%Z ->
              ((2 <= nl)%Z -> True) -> True ->
              triple (eq FrameworkError) (GIN.forward m g h)
                (fun r => exists t, r = GIN.PyTensor t /\ True)).
  { apply (GIN_forward_typed (eq FrameworkError) (fun _ _ => True)
             (fun _ => True));
      intros; (eapply triple_weaken;
               [apply lift_raises_framework_error|auto]). }
  eapply triple_weaken; [apply H; auto|auto].
Qed.

Lemma GIN_hidden_rep_safe {F : Framework} {nl nml : Z} {ind hid outd : nat}
  {m : GIN.t} (g : DGLGraph) (h : Tensor) :
  GIN_built nl nml ind hid outd m ->
  triple (eq FrameworkError) (GIN.hidden_rep m g h)
    (fun hs => length hs = S (Z.to_nat (nl - 1))).
Proof.
  intros B.
  assert (H : GIN_built nl nml ind hid outd m ->
              (0 < Z.to_nat (nl - 1) -> True) -> True ->
              triple (eq FrameworkError) (GIN.hidden_rep m g h)
                (fun hs => length hs = S (Z.to_nat (nl - 1))
                           /\ forall (j : nat) (x : Tensor),
                               nth_error hs j = Some x -> True)).
  { apply (hidden_rep_typed (eq FrameworkError) (fun _ _ => True)
             (fun _ => True));
      intros; (eapply triple_weaken;
               [apply lift_raises_framework_error|auto]). }
  eapply triple_weaken; [apply H; auto|].
  intros hs [Hlen _]. exact Hlen.
Qed.

(** * Properties of the forward pass of GIN *)

(** C1.  For a GIN built by [__init__] with at least one layer, over a
    framework that satisfies the shape laws, and for a batched graph [g] of
    B graphs with an input of one row of [input_dim] features per node (a
    number of nodes batch normalisation accepts, when there is a graph
    convolution), [forward] returns a tensor of shape (B, output_dim),
    where output_dim is the value passed to the constructor. *)
Theorem GIN_forward_output_shape {F : Framework} (L : ShapeLaws F)
  (num_layers num_mlp_layers : Z) (input_dim hidden_dim output_dim : nat)
  (final_dropout : Q) (learn_eps : bool)
  (graph_pooling_type neighbor_pooling_type : string) (s s' : nat)
  (m : GIN.t) (g : DGLGraph) (h : Tensor) :
  GIN.__init__ num_layers num_mlp_layers input_dim hidden_dim output_dim
    final_dropout learn_eps graph_pooling_type neighbor_pooling_type s
  = Ok (m, s') ->
  (1 <= num_layers)%Z ->
  shape h = [num_nodes g; input_dim] ->
  ((2 <= num_layers)%Z -> batch_norm_accepts (num_nodes g) = true) ->
  forall w, exists t w',
    GIN.forward m g h w = Ok (GIN.PyTensor t, w')
    /\ shape t = [batch_size g; output_dim].
Proof.
  intros Hinit Hnl Hh Hrows w.
  apply GIN_init_built in Hinit.
  pose proof (GIN_forward_total g h Hinit Hnl Hrows Hh w) as H.
  destruct (GIN.forward m g h w) as [[r w']|e]; [|contradiction].
  destruct H as (t & -> & Ht). now exists t, w'.
Qed.

Lemma GIN_forward_output_shape_witness :
  exists t w',
    GIN.forward (F := ShapeOnly.framework) example_gin (6, 2) [6; 4] tt
    = Ok (GIN.PyTensor t, w')
    /\ t = [2; 2].
Proof.
  apply (GIN_forward_output_shape ShapeOnly_laws 3 2 4 5 2 (1 # 2) true
           "sum" "max" 0 15 example_gin (6, 2) [6; 4]).
  - reflexivity.
  - lia.
  - reflexivity.
  - reflexivity.
Defined.

(** C9.  A GIN built by [__init__] with [num_layers >= 1] has exactly
    [num_layers - 1] graph convolutions (and as many batch normalisations)
    and exactly [num_layers] prediction heads; whenever the first loop of
    [forward] returns, [hidden_rep] has exactly [num_layers] entries; and
    [forward] never raises IndexError (nor any Python-level exception): it
    returns, or a kernel of the framework raised. *)
Theorem GIN_indexing_in_bounds {F : Framework}
  (num_layers num_mlp_layers : Z) (input_dim hidden_dim output_dim : nat)
  (final_dropout : Q) (learn_eps : bool)
  (graph_pooling_type neighbor_pooling_type : string) (s s' : nat)
  (m : GIN.t) :
  GIN.__init__ num_layers num_mlp_layers input_dim hidden_dim output_dim
    final_dropout learn_eps graph_pooling_type neighbor_pooling_type s
  = Ok (m, s') ->
  (1 <= num_layers)%Z ->
  Z.of_nat (length (GIN.ginlayers m)) = (num_layers - 1)%Z
  /\ Z.of_nat (length (GIN.batch_norms m)) = (num_layers - 1)%Z
  /\ Z.of_nat (length (GIN.linears_prediction m)) = num_layers
  /\ (forall g h w hidden_rep w',
         GIN.hidden_rep m g h w = Ok (hidden_rep, w') ->
         Z.of_nat (length hidden_rep) = num_layers)
  /\ (forall g h w,
         (exists r w', GIN.forward m g h w = Ok (r, w'))
         \/ GIN.forward m g h w = Raise FrameworkError).
Proof.
  intros Hinit Hnl. apply GIN_init_built in Hinit.
  split; [rewrite (built_ginlayers Hinit); lia|].
  split; [rewrite (built_batch_norms Hinit); lia|].
  split; [rewrite (built_heads Hinit); lia|].
  split.
  - intros g h w hs w' Hrun.
    pose proof (GIN_hidden_rep_safe g h Hinit w) as H.
    rewrite Hrun in H. rewrite H. lia.
  - intros g h w.
    pose proof (GIN_forward_safe g h Hinit Hnl w) as H.
    destruct (GIN.forward m g h w) as [[r w']|e].
    + left. now exists r, w'.
    + right. now subst e.
Qed.

Lemma GIN_indexing_in_bounds_witness :
  Z.of_nat (length (GIN.ginlayers example_gin)) = 2%Z
  /\ Z.of_nat (length (GIN.batch_norms example_gin)) = 2%Z
  /\ Z.of_nat (length (GIN.linears_prediction example_gin)) = 3%Z
  /\ (forall g h w hidden_rep w',
         GIN.hidden_rep (F := ShapeOnly.framework) example_gin g h w
         = Ok (hidden_rep, w') ->
         Z.of_nat (length hidden_rep) = 3%Z)
  /\ (forall g h w,
         (exists r w',
             GIN.forward (F := ShapeOnly.framework) example_gin g h w
             = Ok (r, w'))
         \/ GIN.forward (F := ShapeOnly.framework) example_gin g h w
            = Raise FrameworkError).
Proof.
  apply (GIN_indexing_in_bounds (F := ShapeOnly.framework) 3 2 4 5 2 (1 # 2)
           true "sum" "max" 0 15 example_gin).
  - reflexivity.
  - lia.
Defined.




(** * Properties of the MLP *)

(** C6.  [MLP.__init__] branches on the layer count.  With one layer the
    MLP is a single linear transform from input_dim to output_dim and
    [forward] applies it; with two layers or more [linear_or_not] is False,
    no single [linear] is set, and [forward] runs the stack of layers: the
    hidden layers, then the last linear transform. *)
Theorem MLP_branches_on_layer_count {F : Framework} (num_layers : Z)
  (input_dim hidden_dim output_dim s : nat) :
  (1 <= num_layers)%Z ->
  exists m s',
    MLP.__init__ num_layers input_dim hidden_dim output_dim s = Ok (m, s')
    /\ if (num_layers =? 1)%Z then
         MLP.linear_or_not m = true
         /\ exists linear,
             MLP.linear m = Some linear
             /\ in_features linear = input_dim
             /\ out_features linear = output_dim
             /\ forall x w, MLP.forward m x w = lift (linear_fwd linear x) w
       else
         MLP.linear_or_not m = false
         /\ MLP.linear m = None
         /\ exists hidden out batch_norms,
             MLP.linears m = Some (hidden ++ [out])
             /\ MLP.batch_norms m = Some batch_norms
             /\ forall x w,
                 MLP.forward m x w
                 = perceptron (combine hidden batch_norms) out x w.
Proof.
  intros Hn.
  destruct (MLP_init_total num_layers input_dim hidden_dim output_dim s Hn)
    as (m & s' & Hinit).
  exists m, s'. split; [exact Hinit|].
  destruct (Z.eqb_spec num_layers 1) as [->|Hne].
  - pose proof (MLP_forward_single Hinit) as Hfwd.
    rewrite MLP_init_single in Hinit. injection Hinit as <- _.
    split; [reflexivity|].
    exists (mkLinear s input_dim output_dim).
    split; [reflexivity|]. split; [reflexivity|]. split; [reflexivity|].
    exact Hfwd.
  - assert (H2 : (2 <= num_layers)%Z) by lia.
    pose proof (MLP_forward_multi H2 Hinit) as Hfwd. cbv zeta in Hfwd.
    rewrite MLP_init_multi in Hinit by exact H2. injection Hinit as <- _.
    split; [reflexivity|]. split; [reflexivity|].
    exists (mlp_hidden_linears (Z.to_nat (num_layers - 2)) input_dim
              hidden_dim s),
      (mlp_last_linear (Z.to_nat (num_layers - 2)) hidden_dim output_dim s),
      (mlp_batch_norms (Z.to_nat (num_layers - 2)) hidden_dim s).
    split; [reflexivity|]. split; [reflexivity|].
    exact Hfwd.
Qed.

Lemma MLP_branches_on_layer_count_witness :
  exists m s',
    MLP.__init__ 3 4 5 2 0 = Ok (m, s')
    /\ MLP.linear_or_not m = false
    /\ MLP.linear m = None
    /\ exists hidden out batch_norms,
        MLP.linears m = Some (hidden ++ [out])
        /\ MLP.batch_norms m = Some batch_norms
        /\ forall x w,
            MLP.forward (F := ShapeOnly.framework) m x w
            = perceptron (combine hidden batch_norms) out x w.
Proof.
  apply (MLP_branches_on_layer_count (F := ShapeOnly.framework) 3 4 5 2 0).
  lia.
Defined.

(** C7.  For [num_layers >= 2], the MLP built by [__init__] holds exactly
    [num_layers] linear transforms: input_dim to hidden_dim, then
    hidden_dim to hidden_dim for the middle ones, then hidden_dim to
    output_dim; every one but the last has a batch normalisation of width
    hidden_dim; and [forward] applies them in sequence, each hidden linear
    transform followed by its batch normalisation and ReLU, the last one
    returned as it is. *)
Theorem MLP_forward_is_perceptron {F : Framework} (num_layers : Z)
  (input_dim hidden_dim output_dim s : nat) :
  (2 <= num_layers)%Z ->
  exists m s' hidden out batch_norms,
    MLP.__init__ num_layers input_dim hidden_dim output_dim s = Ok (m, s')
    /\ MLP.linears m = Some (hidden ++ [out])
    /\ MLP.batch_norms m = Some batch_norms
    /\ Z.of_nat (length (hidden ++ [out])) = num_layers
    /\ length batch_norms = length hidden
    /\ map layer_dims (combine hidden batch_norms)
       = (input_dim, hidden_dim, hidden_dim)
           :: repeat (hidden_dim, hidden_dim, hidden_dim)
                (Z.to_nat (num_layers - 2))
    /\ in_features out = hidden_dim
    /\ out_features out = output_dim
    /\ forall x w,
        MLP.forward m x w = perceptron (combine hidden batch_norms) out x w.
Proof.
  intros Hn.
  pose proof (MLP_init_multi num_layers input_dim hidden_dim output_dim s Hn)
    as Hinit. cbv zeta in Hinit.
  pose proof (MLP_forward_multi Hn Hinit) as Hfwd. cbv zeta in Hfwd.
  set (k := Z.to_nat (num_layers - 2)) in *.
  eexists _, _, (mlp_hidden_linears k input_dim hidden_dim s),
    (mlp_last_linear k hidden_dim output_dim s),
    (mlp_batch_norms k hidden_dim s).
  split; [exact Hinit|]. split; [reflexivity|]. split; [reflexivity|].
  split; [rewrite length_app, length_mlp_hidden_linears; cbn [length]; lia|].
  split; [now rewrite length_mlp_hidden_linears, length_mlp_batch_norms|].
  split; [apply mlp_hidden_dims|].
  split; [reflexivity|]. split; [reflexivity|]. exact Hfwd.
Qed.

Lemma MLP_forward_is_perceptron_witness :
  exists m s' hidden out batch_norms,
    MLP.__init__ 3 4 5 2 0 = Ok (m, s')
    /\ MLP.linears m = Some (hidden ++ [out])
    /\ MLP.batch_norms m = Some batch_norms
    /\ Z.of_nat (length (hidden ++ [out])) = 3%Z
    /\ length batch_norms = length hidden
    /\ map layer_dims (combine hidden batch_norms) = [(4, 5, 5); (5, 5, 5)]
    /\ in_features out = 5
    /\ out_features out = 2
    /\ forall x w,
        MLP.forward (F := ShapeOnly.framework) m x w
        = perceptron (combine hidden batch_norms) out x w.
Proof.
  apply (MLP_forward_is_perceptron (F := ShapeOnly.framework) 3 4 5 2 0).
  lia.
Defined.

(** C10.  With one layer the MLP does not depend on hidden_dim: for any two
    values of it, [__init__] returns the same module, a single linear
    transform from input_dim to output_dim, and [forward] is that
    transform. *)
Theorem MLP_single_layer_ignores_hidden_dim {F : Framework}
  (input_dim hd1 hd2 output_dim s : nat) :
  exists m linear,
    MLP.__init__ 1 input_dim hd1 output_dim s = Ok (m, S s)
    /\ MLP.__init__ 1 input_dim hd2 output_dim s = Ok (m, S s)
    /\ MLP.linear m = Some linear
    /\ in_features linear = input_dim
    /\ out_features linear = output_dim
    /\ forall x w, MLP.forward m x w = lift (linear_fwd linear x) w.
Proof.
  eexists _, (mkLinear s input_dim output_dim).
  split; [apply MLP_init_single|]. split; [apply MLP_init_single|].
  split; [reflexivity|]. split; [reflexivity|]. split; [reflexivity|].
  intros x w. reflexivity.
Qed.

(** * Validation in the constructor of GIN *)

Lemma GIN_init_dropout_error (nl nml : Z) (ind hid outd : nat) (p : Q)
  (le : bool) (gpt npt : string) (s : nat) :
  layers_constructible nl nml npt -> ~ dropout_valid p ->
  GIN.__init__ nl nml ind hid outd p le gpt npt s
  = Raise (ValueError "dropout probability has to be between 0 and 1").
Proof.
  intros Hlayers Hp.
  destruct (GIN_init_after_layers nl nml ind hid outd p le gpt npt s Hlayers)
    as (gl & bns & s1 & ->).
  apply bind_raise. unfold Dropout_init, dropout_valid in *.
  destruct (Qle_bool 0 p && Qle_bool p 1); [now contradiction Hp|reflexivity].
Qed.

Lemma GIN_init_after_dropout (nl nml : Z) (ind hid outd : nat) (p : Q)
  (le : bool) (gpt npt : string) (s : nat) :
  layers_constructible nl nml npt -> dropout_valid p ->
  exists gl bns s1,
    GIN.__init__ nl nml ind hid outd p le gpt npt s
    = (pool <- select_pool gpt ;;
       ret (GIN.mk nl le gl bns (built_heads_at nl ind hid outd s1)
              (mkDropout p) pool)) (s1 + Z.to_nat nl).
Proof.
  intros Hlayers Hp.
  destruct (GIN_init_after_layers nl nml ind hid outd p le gpt npt s Hlayers)
    as (gl & bns & s1 & ->).
  exists gl, bns, s1.
  assert (Hdrop : Dropout_init p (s1 + Z.to_nat nl)
                  = Ok (mkDropout p, s1 + Z.to_nat nl)).
  { unfold Dropout_init. unfold dropout_valid in Hp. now rewrite Hp. }
  now rewrite (bind_ok _ Hdrop).
Qed.

(** How [GIN.__init__] ends, by what it checks and in which order. *)
Lemma GIN_init_cases (nl nml : Z) (ind hid outd : nat) (p : Q) (le : bool)
  (gpt npt : string) (s : nat) :
  let r := GIN.__init__ nl nml ind hid outd p le gpt npt s in
  ((2 <= nl)%Z /\ (nml < 1)%Z
   /\ r = Raise (ValueError "number of layers should be positive!"))
  \/ ((2 <= nl)%Z /\ (1 <= nml)%Z /\ recognised_aggregator npt = false
      /\ r = Raise (KeyError "Aggregator type not recognized."))
  \/ (layers_constructible nl nml npt /\ ~ dropout_valid p
      /\ r = Raise (ValueError "dropout probability has to be between 0 and 1"))
  \/ (layers_constructible nl nml npt /\ dropout_valid p
      /\ gpt <> "sum"%string /\ gpt <> "mean"%string /\ gpt <> "max"%string
      /\ r = Raise NotImplementedError)
  \/ (layers_constructible nl nml npt /\ dropout_valid p
      /\ exists m s',
          r = Ok (m, s')
          /\ ((gpt = "sum"%string /\ GIN.pool m = SumPooling)
              \/ (gpt = "mean"%string /\ GIN.pool m = AvgPooling)
              \/ (gpt = "max"%string /\ GIN.pool m = MaxPooling))).
Proof.
  intros r. subst r.
  destruct (Z_lt_le_dec nl 2) as [Hnl|Hnl].
  2: destruct (Z_lt_le_dec nml 1) as [Hnml|Hnml].
  2:{ left. split; [exact Hnl|]. split; [exact Hnml|].
      now apply GIN_init_layer_count_error. }
  2: destruct (recognised_aggregator npt) eqn:Hrec.
  3:{ right; left. split; [exact Hnl|]. split; [exact Hnml|].
      split; [reflexivity|]. now apply GIN_init_aggregator_error. }
  all: right; right.
  all: assert (Hlayers : layers_constructible nl nml npt)
    by (intros H2; first [lia | now split]).
  all: destruct (Qle_bool 0 p && Qle_bool p 1) eqn:Hp.
  all: try (left; split; [exact Hlayers|]; split;
            [unfold dropout_valid; congruence|];
            apply GIN_init_dropout_error;
            [exact Hlayers|unfold dropout_valid; congruence]).
  all: right.
  all: destruct (GIN_init_after_dropout nl nml ind hid outd p le gpt npt s
                   Hlayers Hp) as (gl & bns & s1 & ->).
  all: destruct (select_pool_cases gpt (s1 + Z.to_nat nl))
    as [[Hg Hsel]|[[Hg Hsel]|[[Hg Hsel]|(H1 & H2 & H3 & Hsel)]]].
  all: try (left; split; [exact Hlayers|]; split; [exact Hp|];
            split; [exact H1|]; split; [exact H2|]; split; [exact H3|];
            now apply bind_raise).
  all: right; split; [exact Hlayers|]; split; [exact Hp|];
    rewrite (bind_ok _ Hsel); eexists _, _; (split; [reflexivity|]);
    cbn [GIN.pool]; auto.
Qed.

(** C3, as the specification states it, fails: [GIN.__init__] accepts a
    layer count of zero, and with a single layer it accepts any
    [num_mlp_layers]. *)
Lemma GIN_init_accepts_nonpositive_layer_counts :
  GIN.__init__ 0 0 4 5 2 (1 # 2) true "sum" "sum" 0
  = Ok (GIN.mk 0 true [] [] [] (mkDropout (1 # 2)) SumPooling, 0)
  /\ GIN.__init__ 1 (-3) 4 5 2 (1 # 2) true "sum" "sum" 0
     = Ok (GIN.mk 1 true [] [] [mkLinear 0 4 2] (mkDropout (1 # 2))
             SumPooling, 1).
Proof. split; reflexivity. Qed.

(** C3, amended.  [MLP.__init__] raises its ValueError exactly when its
    layer count is below one.  [GIN.__init__] raises that ValueError
    exactly when it has a graph convolution to build ([num_layers >= 2])
    and [num_mlp_layers] is below one.  Its own [num_layers] is not
    checked: with [num_layers <= 1] no MLP is built and, for every
    [num_mlp_layers], the construction succeeds as soon as the dropout
    probability is valid and the graph pooling type is recognised. *)
Theorem layer_count_validation (num_layers num_mlp_layers : Z)
  (input_dim hidden_dim output_dim : nat) (final_dropout : Q)
  (learn_eps : bool) (graph_pooling_type neighbor_pooling_type : string)
  (s : nat) :
  (MLP.__init__ num_mlp_layers input_dim hidden_dim output_dim s
   = Raise (ValueError "number of layers should be positive!")
   <-> (num_mlp_layers < 1)%Z)
  /\ (GIN.__init__ num_layers num_mlp_layers input_dim hidden_dim output_dim
        final_dropout learn_eps graph_pooling_type neighbor_pooling_type s
      = Raise (ValueError "number of layers should be positive!")
      <-> (2 <= num_layers)%Z /\ (num_mlp_layers < 1)%Z)
  /\ ((num_layers <= 1)%Z ->
      dropout_valid final_dropout ->
      graph_pooling_type = "sum"%string \/ graph_pooling_type = "mean"%string
      \/ graph_pooling_type = "max"%string ->
      exists m s',
        GIN.__init__ num_layers num_mlp_layers input_dim hidden_dim output_dim
          final_dropout learn_eps graph_pooling_type neighbor_pooling_type s
        = Ok (m, s')).
Proof.
  split; [|split].
  - split.
    + intros H. destruct (Z_lt_le_dec num_mlp_layers 1) as [Hlt|Hge];
        [exact Hlt|].
      destruct (MLP_init_total num_mlp_layers input_dim hidden_dim output_dim
                  s Hge) as (m & s' & Hok).
      rewrite Hok in H. discriminate.
    + apply MLP_init_rejects.
  - split.
    + intros H.
      destruct (GIN_init_cases num_layers num_mlp_layers input_dim hidden_dim
                  output_dim final_dropout learn_eps graph_pooling_type
                  neighbor_pooling_type s)
        as [(H1 & H2 & _)|[(_ & _ & _ & Hr)|[(_ & _ & Hr)
           |[(_ & _ & _ & _ & _ & Hr)|(_ & _ & m & s' & Hr & _)]]]];
        cbv zeta in *; try (now split); rewrite Hr in H; discriminate.
    + intros [H1 H2]. now apply GIN_init_layer_count_error.
  - intros Hnl Hp Hg.
    destruct (GIN_init_cases num_layers num_mlp_layers input_dim hidden_dim
                output_dim final_dropout learn_eps graph_pooling_type
                neighbor_pooling_type s)
      as [(H1 & _)|[(H1 & _)|[(_ & Hnp & _)
         |[(_ & _ & G1 & G2 & G3 & _)|(_ & _ & m & s' & Hr & _)]]]];
      cbv zeta in *; try lia; try contradiction.
    + destruct Hg as [Hg|[Hg|Hg]]; contradiction.
    + now exists m, s'.
Qed.

Lemma layer_count_validation_witness :
  GIN.__init__ 3 0 4 5 2 (1 # 2) true "sum" "max" 0
  = Raise (ValueError "number of layers should be positive!")
  /\ exists m s',
      GIN.__init__ 1 0 4 5 2 (1 # 2) true "sum" "max" 0 = Ok (m, s').
Proof.
  split.
  - apply (proj2 (proj1 (proj2 (layer_count_validation 3 0 4 5 2 (1 # 2) true
                                   "sum" "max" 0)))).
    split; lia.
  - apply (proj2 (proj2 (layer_count_validation 1 0 4 5 2 (1 # 2) true
                           "sum" "max" 0))).
    + lia.
    + reflexivity.
    + left. reflexivity.
Defined.

(** C4.  When [GIN.__init__] returns a model, its readout is SumPooling,
    AvgPooling or MaxPooling as [graph_pooling_type] is 'sum', 'mean' or
    'max'; it does return one for these three values whenever the layers
    can be built and the dropout probability is valid; and for every other
    value of [graph_pooling_type] the construction raises: NotImplementedError
    when it gets as far as the selection, an earlier error otherwise. *)
Theorem graph_pooling_selection (num_layers num_mlp_layers : Z)
  (input_dim hidden_dim output_dim : nat) (final_dropout : Q)
  (learn_eps : bool) (graph_pooling_type neighbor_pooling_type : string)
  (s : nat) :
  let r := GIN.__init__ num_layers num_mlp_layers input_dim hidden_dim
             output_dim final_dropout learn_eps graph_pooling_type
             neighbor_pooling_type s in
  (forall m s', r = Ok (m, s') ->
     (graph_pooling_type = "sum"%string /\ GIN.pool m = SumPooling)
     \/ (graph_pooling_type = "mean"%string /\ GIN.pool m = AvgPooling)
     \/ (graph_pooling_type = "max"%string /\ GIN.pool m = MaxPooling))
  /\ (layers_constructible num_layers num_mlp_layers neighbor_pooling_type ->
      dropout_valid final_dropout ->
      graph_pooling_type = "sum"%string \/ graph_pooling_type = "mean"%string
      \/ graph_pooling_type = "max"%string ->
      exists m s', r = Ok (m, s'))
  /\ (graph_pooling_type <> "sum"%string ->
      graph_pooling_type <> "mean"%string ->
      graph_pooling_type <> "max"%string ->
      (exists e, r = Raise e)
      /\ (layers_constructible num_layers num_mlp_layers neighbor_pooling_type ->
          dropout_valid final_dropout ->
          r = Raise NotImplementedError)).
Proof.
  intros r.
  pose proof (GIN_init_cases num_layers num_mlp_layers input_dim hidden_dim
                output_dim final_dropout learn_eps graph_pooling_type
                neighbor_pooling_type s) as Hcases.
  cbv zeta in Hcases. fold r in Hcases.
  split; [|split].
  - intros m s' Hok.
    destruct Hcases as [(_ & _ & Hr)|[(_ & _ & _ & Hr)|[(_ & _ & Hr)
      |[(_ & _ & _ & _ & _ & Hr)|(_ & _ & m' & s'' & Hr & Hpool)]]]];
      rewrite Hr in Hok; try discriminate.
    injection Hok as <- _. exact Hpool.
  - intros Hlayers Hp Hg.
    destruct Hcases as [(H1 & H2 & _)|[(H1 & _ & H2 & _)|[(_ & Hnp & _)
      |[(_ & _ & G1 & G2 & G3 & _)|(_ & _ & m & s' & Hr & _)]]]].
    + destruct (Hlayers H1). lia.
    + destruct (Hlayers H1). congruence.
    + contradiction.
    + destruct Hg as [Hg|[Hg|Hg]]; contradiction.
    + now exists m, s'.
  - intros G1 G2 G3. split.
    + destruct Hcases as [(_ & _ & Hr)|[(_ & _ & _ & Hr)|[(_ & _ & Hr)
        |[(_ & _ & _ & _ & _ & Hr)|(_ & _ & m & s' & _ & Hpool)]]]];
        try (eexists; exact Hr).
      destruct Hpool as [[Hg _]|[[Hg _]|[Hg _]]]; contradiction.
    + intros Hlayers Hp.
      destruct Hcases as [(H1 & H2 & _)|[(H1 & _ & H2 & _)|[(_ & Hnp & _)
        |[(_ & _ & _ & _ & _ & Hr)|(_ & _ & m & s' & _ & Hpool)]]]].
      * destruct (Hlayers H1). lia.
      * destruct (Hlayers H1). congruence.
      * contradiction.
      * exact Hr.
      * destruct Hpool as [[Hg _]|[[Hg _]|[Hg _]]]; contradiction.
Qed.

Lemma graph_pooling_selection_witness :
  (exists m s',
      GIN.__init__ 3 2 4 5 2 (1 # 2) true "mean" "max" 0 = Ok (m, s'))
  /\ GIN.__init__ 3 2 4 5 2 (1 # 2) true "avg" "max" 0
     = Raise NotImplementedError.
Proof.
  split.
  - apply (proj1 (proj2 (graph_pooling_selection 3 2 4 5 2 (1 # 2) true
                           "mean" "max" 0))).
    + intros _. split; [lia|reflexivity].
    + reflexivity.
    + right; left. reflexivity.
  - apply (proj2 (proj2 (graph_pooling_selection 3 2 4 5 2 (1 # 2) true
                           "avg" "max" 0))).
    + discriminate.
    + discriminate.
    + discriminate.
    + intros _. split; [lia|reflexivity].
    + reflexivity.
Defined.

(** C5, as the specification states it, fails: with a single layer no graph
    convolution is built and an unknown neighbour pooling type is
    accepted. *)
Lemma GIN_init_accepts_unknown_neighbor_pooling :
  GIN.__init__ 1 1 4 5 2 (1 # 2) true "sum" "median" 0
  = Ok (GIN.mk 1 true [] [] [mkLinear 0 4 2] (mkDropout (1 # 2)) SumPooling,
        1).
Proof. reflexivity. Qed.

(** C5, amended.  With a graph convolution to build ([num_layers >= 2]), a
    neighbour pooling type outside 'sum', 'mean', 'max' makes the
    construction raise: the KeyError of [GINConv] when [num_mlp_layers] is
    positive, the ValueError of the MLP otherwise.  With [num_layers <= 1]
    the neighbour pooling type is never looked at: the construction does
    the same for every value of it. *)
Theorem neighbor_pooling_validation (num_layers num_mlp_layers : Z)
  (input_dim hidden_dim output_dim : nat) (final_dropout : Q)
  (learn_eps : bool) (graph_pooling_type neighbor_pooling_type : string)
  (s : nat) :
  ((2 <= num_layers)%Z ->
   neighbor_pooling_type <> "sum"%string ->
   neighbor_pooling_type <> "mean"%string ->
   neighbor_pooling_type <> "max"%string ->
   GIN.__init__ num_layers num_mlp_layers input_dim hidden_dim output_dim
     final_dropout learn_eps graph_pooling_type neighbor_pooling_type s
   = Raise (if (num_mlp_layers <? 1)%Z
            then ValueError "number of layers should be positive!"
            else KeyError "Aggregator type not recognized."))
  /\ ((num_layers <= 1)%Z ->
      forall other : string,
        GIN.__init__ num_layers num_mlp_layers input_dim hidden_dim output_dim
          final_dropout learn_eps graph_pooling_type neighbor_pooling_type s
        = GIN.__init__ num_layers num_mlp_layers input_dim hidden_dim
            output_dim final_dropout learn_eps graph_pooling_type other s).
Proof.
  split.
  - intros Hnl H1 H2 H3.
    destruct (Z.ltb_spec num_mlp_layers 1) as [Hlt|Hge].
    + now apply GIN_init_layer_count_error.
    + apply GIN_init_aggregator_error; [exact Hnl|exact Hge|].
      now apply recognised_aggregator_false.
  - intros Hnl other. rewrite !GIN_init_phases.
    rewrite (range_nonpos (num_layers - 1)) by lia. reflexivity.
Qed.

Lemma neighbor_pooling_validation_witness :
  GIN.__init__ 2 1 4 5 2 (1 # 2) true "sum" "median" 0
  = Raise (KeyError "Aggregator type not recognized.")
  /\ GIN.__init__ 1 1 4 5 2 (1 # 2) true "sum" "median" 0
     = GIN.__init__ 1 1 4 5 2 (1 # 2) true "sum" "sum" 0.
Proof.
  split.
  - apply (proj1 (neighbor_pooling_validation 2 1 4 5 2 (1 # 2) true "sum"
                    "median" 0)).
    + lia.
    + discriminate.
    + discriminate.
    + discriminate.
  - apply (proj2 (neighbor_pooling_validation 1 1 4 5 2 (1 # 2) true "sum"
                    "median" 0)).
    lia.
Defined.

(** * A model without layers *)

(** X6.  [GIN.__init__] accepts [num_layers <= 0] and builds no prediction
    head; the forward pass of such a model never returns: it pools the
    input and, when the pooling kernel returns, raises IndexError on
    [linears_prediction[0]]. *)
Lemma GIN_forward_without_layers {F : Framework}
  (num_layers num_mlp_layers : Z) (input_dim hidden_dim output_dim : nat)
  (final_dropout : Q) (learn_eps : bool)
  (graph_pooling_type neighbor_pooling_type : string) (s s' : nat)
  (m : GIN.t) (g : DGLGraph) (h : Tensor) (w : World) :
  GIN.__init__ num_layers num_mlp_layers input_dim hidden_dim output_dim
    final_dropout learn_eps graph_pooling_type neighbor_pooling_type s
  = Ok (m, s') ->
  (num_layers <= 0)%Z ->
  GIN.forward m g h w
  = match lift (pool_fwd (GIN.pool m) g h) w with
    | Ok _ => Raise IndexError
    | Raise e => Raise e
    end.
Proof.
  intros Hinit Hnl. apply GIN_init_built in Hinit.
  pose proof (built_heads Hinit) as Hheads.
  replace (Z.to_nat num_layers) with 0 in Hheads by lia.
  apply length_zero_iff_nil in Hheads.
  unfold GIN.forward, GIN.hidden_rep.
  rewrite (built_num_layers Hinit), (range_nonpos (num_layers - 1)) by lia.
  cbn [for_each]. unfold bind at 1 2. cbn [ret].
  unfold GIN.score_over_layer, enumerate. cbn [enumerate_from for_each].
  rewrite Hheads. unfold bind.
  destruct (lift (pool_fwd (GIN.pool m) g h) w) as [[pooled w1]|e];
    reflexivity.
Qed.

(** * Further properties: the MLP and ApplyNodeFunc on their own *)

Lemma triple_total_elim {St A : Type} {c : M St A} {Q : A -> Prop} :
  triple (fun _ => False) c Q ->
  forall s, exists a s', c s = Ok (a, s') /\ Q a.
Proof.
  intros H s. specialize (H s).
  destruct (c s) as [[a s']|e]; [|contradiction]. now exists a, s'.
Qed.

Lemma triple_safe_elim {St A : Type} {c : M St A} {Q : A -> Prop} :
  triple (eq FrameworkError) c Q ->
  forall s, (exists a s', c s = Ok (a, s')) \/ c s = Raise FrameworkError.
Proof.
  intros H s. specialize (H s).
  destruct (c s) as [[a s']|e]; [left; now exists a, s'|right; now subst e].
Qed.

Lemma linear_total {F : Framework} {L : ShapeLaws F} (l : Linear) (x : Tensor)
  (n : nat) :
  shape x = [n; in_features l] ->
  triple (fun _ => False) (lift (linear_fwd l x))
    (fun y => shape y = [n; out_features l]).
Proof. intros Hx. now apply yields_triple, linear_shape. Qed.

Lemma batch_norm_total {F : Framework} {L : ShapeLaws F} (b : BatchNorm1d)
  (x : Tensor) (n : nat) :
  batch_norm_accepts n = true -> shape x = [n; num_features b] ->
  triple (fun _ => False) (lift (batch_norm_fwd b x))
    (fun y => shape y = [n; num_features b]).
Proof. intros Hn Hx. now apply yields_triple, batch_norm_shape. Qed.

Lemma relu_total {F : Framework} {L : ShapeLaws F} (x : Tensor)
  (s : list nat) :
  shape x = s ->
  triple (fun _ => False) (lift (relu_fwd x)) (fun y => shape y = s).
Proof. intros <-. apply yields_triple, relu_shape. Qed.

(** X1.  Over a framework that satisfies the shape laws, the forward pass
    of an MLP built by [__init__] returns, and maps [r] rows of input_dim
    features to [r] rows of output_dim features; the number of rows has to
    suit batch normalisation only when there are two layers or more. *)
Theorem MLP_forward_output_shape {F : Framework} (L : ShapeLaws F)
  (num_layers : Z) (input_dim hidden_dim output_dim s s' : nat) (m : MLP.t)
  (r : nat) (x : Tensor) :
  MLP.__init__ num_layers input_dim hidden_dim output_dim s = Ok (m, s') ->
  shape x = [r; input_dim] ->
  ((2 <= num_layers)%Z -> batch_norm_accepts r = true) ->
  forall w, exists y w',
    MLP.forward m x w = Ok (y, w') /\ shape y = [r; output_dim].
Proof.
  intros Hinit Hx Hrows.
  destruct (Z_lt_le_dec num_layers 2) as [Hlt|Hge].
  - destruct (Z_lt_le_dec num_layers 1) as [Hlt1|Hge1].
    { rewrite MLP_init_rejects in Hinit by exact Hlt1. discriminate. }
    assert (num_layers = 1%Z) by lia. subst num_layers.
    intros w. rewrite (MLP_forward_single Hinit).
    apply (triple_total_elim
             (linear_total (mkLinear s input_dim output_dim) x r Hx)).
  - apply triple_total_elim.
    apply (MLP_forward_typed (fun _ => False) (fun x s => shape x = s)
             (fun n => batch_norm_accepts n = true)
             linear_total batch_norm_total relu_total Hinit (Hrows Hge) Hx).
Qed.

Lemma MLP_forward_output_shape_witness :
  exists y w',
    MLP.forward (F := ShapeOnly.framework) example_mlp [6; 4] tt = Ok (y, w')
    /\ y = [6; 2].
Proof.
  apply (MLP_forward_output_shape ShapeOnly_laws 3 4 5 2 0 5 example_mlp 6
           [6; 4]).
  - reflexivity.
  - reflexivity.
  - intros _. reflexivity.
Defined.

(** X2.  Whatever the kernels do, the forward pass of an MLP built by
    [__init__] raises no exception of its own: every index into [linears]
    and [batch_norms] is in bounds and every attribute it reads is set, so
    it returns or a kernel of the framework raised. *)
Theorem MLP_forward_raises_only_kernel_errors {F : Framework}
  (num_layers : Z) (input_dim hidden_dim output_dim s s' : nat) (m : MLP.t) :
  MLP.__init__ num_layers input_dim hidden_dim output_dim s = Ok (m, s') ->
  forall x w,
    (exists y w', MLP.forward m x w = Ok (y, w'))
    \/ MLP.forward m x w = Raise FrameworkError.
Proof.
  intros Hinit x. apply (triple_safe_elim (Q := fun _ => True)).
  apply (MLP_forward_typed (eq FrameworkError) (fun _ _ => True)
           (fun _ => True)) with (n := num_layers) (i := input_dim)
           (h := hidden_dim) (o := output_dim) (s := s) (s' := s') (r := 0);
    try exact Hinit; try exact Logic.I;
    intros; (eapply triple_weaken;
             [apply lift_raises_framework_error|auto]).
Qed.

Lemma MLP_forward_raises_only_kernel_errors_witness :
  (exists y w',
      MLP.forward (F := ShapeOnly.framework) example_mlp [6; 3] tt
      = Ok (y, w'))
  \/ MLP.forward (F := ShapeOnly.framework) example_mlp [6; 3] tt
     = Raise FrameworkError.
Proof.
  apply (MLP_forward_raises_only_kernel_errors (F := ShapeOnly.framework)
           3 4 5 2 0 5 example_mlp eq_refl [6; 3] tt).
Defined.

(** X3.  [ApplyNodeFunc.__init__] wraps an MLP with a batch normalisation
    as wide as the output of the MLP and never raises; over a framework
    that satisfies the shape laws, and for a number of rows batch
    normalisation accepts, its forward pass returns and maps [r] rows of
    the input width of the MLP to [r] rows of its output width. *)
Theorem ApplyNodeFunc_forward_output_shape {F : Framework} (L : ShapeLaws F)
  (num_layers : Z) (input_dim hidden_dim output_dim s s1 : nat)
  (mlp : MLP.t) (r : nat) (x : Tensor) :
  MLP.__init__ num_layers input_dim hidden_dim output_dim s = Ok (mlp, s1) ->
  exists f,
    ApplyNodeFunc.__init__ mlp s1 = Ok (f, S s1)
    /\ ApplyNodeFunc.mlp f = mlp
    /\ num_features (ApplyNodeFunc.bn f) = output_dim
    /\ (shape x = [r; input_dim] ->
        batch_norm_accepts r = true ->
        forall w, exists y w',
          ApplyNodeFunc.forward f x w = Ok (y, w')
          /\ shape y = [r; output_dim]).
Proof.
  intros Hinit.
  exists (ApplyNodeFunc.mk mlp (mkBatchNorm1d s1 (MLP.output_dim mlp))).
  split; [apply ApplyNodeFunc_init_eq|]. split; [reflexivity|].
  pose proof (MLP_init_output_dim _ _ _ _ _ _ _ Hinit) as Hout.
  split; [exact Hout|].
  intros Hx Hr. apply triple_total_elim. unfold ApplyNodeFunc.forward.
  cbn [ApplyNodeFunc.mlp ApplyNodeFunc.bn].
  eapply triple_bind.
  { apply (MLP_forward_typed (fun _ => False) (fun x s => shape x = s)
             (fun n => batch_norm_accepts n = true)
             linear_total batch_norm_total relu_total Hinit Hr Hx). }
  intros a Ha. cbv beta in Ha.
  eapply triple_bind.
  { apply (batch_norm_total (mkBatchNorm1d s1 (MLP.output_dim mlp)) a r Hr).
    cbn [num_features]. rewrite Hout. exact Ha. }
  intros b Hb. cbv beta in Hb. cbn [num_features] in Hb. rewrite Hout in Hb.
  now apply relu_total.
Qed.

Lemma ApplyNodeFunc_forward_output_shape_witness :
  exists y w',
    ApplyNodeFunc.forward (F := ShapeOnly.framework) example_apply_func
      [6; 4] tt
    = Ok (y, w')
    /\ y = [6; 2].
Proof.
  destruct (ApplyNodeFunc_forward_output_shape ShapeOnly_laws 3 4 5 2 0 5
              example_mlp 6 [6; 4] eq_refl) as (f & Hf & _ & _ & Hfwd).
  injection Hf as <-.
  apply (Hfwd eq_refl eq_refl tt).
Defined.

(** * Further properties: the parameter blocks the constructors allocate *)

(** The parameter blocks of an MLP built at identifier [s] are the next
    [2 * num_layers - 1] identifiers, in order. *)
Lemma MLP_init_blocks (n : Z) (i h o s s' : nat) (m : MLP.t) :
  MLP.__init__ n i h o s = Ok (m, s') ->
  (1 <= n)%Z
  /\ s' = s + Z.to_nat (2 * n - 1)
  /\ MLP_param_ids m = seq s (Z.to_nat (2 * n - 1)).
Proof.
  intros Hinit.
  destruct (Z_lt_le_dec n 1) as [Hlt|Hge].
  { rewrite MLP_init_rejects in Hinit by exact Hlt. discriminate. }
  split; [exact Hge|].
  destruct (Z.eq_dec n 1) as [->|Hne].
  - rewrite MLP_init_single in Hinit. injection Hinit as <- <-.
    split; [cbn; lia|reflexivity].
  - rewrite MLP_init_multi in Hinit by lia. injection Hinit as <- <-.
    set (k := Z.to_nat (n - 2)).
    replace (Z.to_nat (2 * n - 1)) with ((S k + 1) + S k) by lia.
    split; [lia|].
    unfold MLP_param_ids.
    cbn [MLP.linear MLP.linears MLP.batch_norms app].
    unfold mlp_hidden_linears, mlp_last_linear, mlp_batch_norms.
    cbn [map lin_id].
    rewrite map_app, lin_ids_of_fresh, bn_ids_of_fresh. cbn [map lin_id].
    rewrite !seq_app. cbn [seq]. fold k.
    replace (s + S k) with (S s + k) by lia.
    replace (s + (S k + 1)) with (S (S s) + k) by lia.
    reflexivity.
Qed.

(** X4.  An MLP of [num_layers >= 1] layers built at identifier [s] owns
    exactly the next [2 * num_layers - 1] parameter blocks ([num_layers]
    linear transforms and [num_layers - 1] batch normalisations): its
    modules are pairwise distinct and the construction leaves the
    allocator right after them. *)
Theorem MLP_init_parameter_blocks (num_layers : Z)
  (input_dim hidden_dim output_dim s : nat) :
  (1 <= num_layers)%Z ->
  exists m,
    MLP.__init__ num_layers input_dim hidden_dim output_dim s
    = Ok (m, s + Z.to_nat (2 * num_layers - 1))
    /\ MLP_param_ids m = seq s (Z.to_nat (2 * num_layers - 1))
    /\ NoDup (MLP_param_ids m).
Proof.
  intros Hn.
  destruct (MLP_init_total num_layers input_dim hidden_dim output_dim s Hn)
    as (m & s' & Hinit).
  destruct (MLP_init_blocks _ _ _ _ _ _ _ Hinit) as (_ & -> & Hids).
  exists m. split; [exact Hinit|]. split; [exact Hids|].
  rewrite Hids. apply seq_NoDup.
Qed.

Lemma MLP_init_parameter_blocks_witness :
  exists m,
    MLP.__init__ 3 4 5 2 7 = Ok (m, 12)
    /\ MLP_param_ids m = [7; 8; 9; 10; 11]
    /\ NoDup (MLP_param_ids m).
Proof.
  apply (MLP_init_parameter_blocks 3 4 5 2 7). lia.
Defined.

Lemma GINConv_init_fields (f : ApplyNodeFunc.t) (name : string) (eps : Z)
  (le : bool) (s s' : nat) (c : GINConv.t) :
  GINConv.__init__ f name eps le s = Ok (c, s') ->
  exists r, c = GINConv.mk f r s eps le /\ s' = S s.
Proof.
  intros H. destruct (recognised_aggregator name) eqn:Hr.
  - destruct (GINConv_init_accepts f name eps le s Hr) as (r & Heq).
    rewrite Heq in H. injection H as <- <-. now exists r.
  - rewrite GINConv_init_rejects in H by exact Hr. discriminate.
Qed.

(** One iteration of the first loop of [GIN.__init__] allocates the next
    [blocks_per_layer] identifiers, the last one for the batch
    normalisation that follows the layer. *)
Lemma conv_layer_step_blocks (nml : Z) (ind hid : nat) (le : bool)
  (npt : string) (layer : Z) (gl gl' : list GINConv.t)
  (bns bns' : list BatchNorm1d) (s s' : nat) :
  conv_layer_step nml ind hid le npt layer (gl, bns) s
  = Ok ((gl', bns'), s') ->
  exists c b,
    gl' = gl ++ [c] /\ bns' = bns ++ [b]
    /\ conv_param_ids c ++ [bn_id b] = seq s (blocks_per_layer nml)
    /\ s' = s + blocks_per_layer nml
    /\ GINConv.init_eps c = 0%Z /\ GINConv.learn_eps c = le.
Proof.
  unfold conv_layer_step. intros H.
  apply bind_ok_inv in H. destruct H as (mlp & s1 & Hmlp & H).
  assert (Hblocks : (1 <= nml)%Z /\ s1 = s + Z.to_nat (2 * nml - 1)
                    /\ MLP_param_ids mlp = seq s (Z.to_nat (2 * nml - 1))).
  { destruct (layer =? 0)%Z; eapply MLP_init_blocks; exact Hmlp. }
  destruct Hblocks as (Hnml & Hs1 & Hids).
  apply bind_ok_inv in H. destruct H as (f & s2 & Hf & H).
  rewrite ApplyNodeFunc_init_eq in Hf. injection Hf as <- <-.
  apply bind_ok_inv in H. destruct H as (c & s3 & Hc & H).
  apply GINConv_init_fields in Hc. destruct Hc as (r & -> & ->).
  apply bind_ok_inv in H. destruct H as (b & s4 & Hb & H).
  unfold BatchNorm1d_init, bind, fresh, ret in Hb. injection Hb as <- <-.
  unfold ret in H. injection H as <- <- <-.
  eexists _, _. split; [reflexivity|]. split; [reflexivity|].
  unfold blocks_per_layer.
  replace (Z.to_nat (2 * nml + 2)) with (Z.to_nat (2 * nml - 1) + 3) by lia.
  split; [|split; [lia|split; reflexivity]].
  unfold conv_param_ids.
  cbn [GINConv.apply_func GINConv.eps_id ApplyNodeFunc.mlp ApplyNodeFunc.bn
         bn_id].
  rewrite Hids, seq_app, <- Hs1, <- app_assoc. reflexivity.
Qed.

Lemma conv_loop_blocks (nml : Z) (ind hid : nat) (le : bool) (npt : string)
  (n : Z) (gl : list GINConv.t) (bns : list BatchNorm1d) (s s' : nat) :
  for_each (range n) ([], []) (conv_layer_step nml ind hid le npt) s
  = Ok ((gl, bns), s') ->
  s' = s + Z.to_nat n * blocks_per_layer nml
  /\ Permutation (flat_map conv_param_ids gl ++ map bn_id bns)
       (seq s (Z.to_nat n * blocks_per_layer nml))
  /\ Forall (fun c => GINConv.init_eps c = 0%Z /\ GINConv.learn_eps c = le)
       gl.
Proof.
  intros Hrun. set (A := blocks_per_layer nml).
  pose (I := fun (k : nat) (acc : list GINConv.t * list BatchNorm1d)
                 (st : nat) =>
               st = s + k * A
               /\ Permutation
                    (flat_map conv_param_ids (fst acc) ++ map bn_id (snd acc))
                    (seq s (k * A))
               /\ Forall (fun c => GINConv.init_eps c = 0%Z
                                   /\ GINConv.learn_eps c = le) (fst acc)).
  assert (HI : I (0 + length (range n)) (gl, bns) s').
  { apply (for_each_inv I (conv_layer_step nml ind hid le npt) (range n) 0
             ([], []) s); [| |exact Hrun].
    - unfold I. cbn. split; [lia|]. split; constructor.
    - intros j a [gl0 bns0] s0 [gl1 bns1] s1 _ (Hs0 & Hperm & Hall) Hstep.
      cbn [Nat.add fst snd] in *.
      apply conv_layer_step_blocks in Hstep.
      destruct Hstep as (c & b & -> & -> & Hseq & -> & Heps & Hle).
      fold A in Hseq |- *.
      unfold I. cbn [fst snd]. rewrite Nat.mul_succ_l.
      split; [lia|]. split.
      + rewrite flat_map_app, map_app. cbn [flat_map map].
        rewrite app_nil_r, seq_app, <- Hs0, <- Hseq.
        transitivity ((flat_map conv_param_ids gl0 ++ map bn_id bns0)
                      ++ (conv_param_ids c ++ [bn_id b])).
        * rewrite <- !app_assoc. apply Permutation_app_head.
          rewrite !app_assoc. apply Permutation_app_tail.
          apply Permutation_app_comm.
        * apply Permutation_app_tail. exact Hperm.
      + apply Forall_app. split; [exact Hall|]. now repeat constructor. }
  rewrite length_range in HI. exact HI.
Qed.

(** A successful run of [GIN.__init__], with the state it ends in. *)
Lemma GIN_init_run (nl nml : Z) (ind hid outd : nat) (p : Q) (le : bool)
  (gpt npt : string) (s s' : nat) (m : GIN.t) :
  GIN.__init__ nl nml ind hid outd p le gpt npt s = Ok (m, s') ->
  exists gl bns s1 pl,
    for_each (range (nl - 1)) ([], []) (conv_layer_step nml ind hid le npt) s
    = Ok ((gl, bns), s1)
    /\ s' = s1 + Z.to_nat nl
    /\ m = GIN.mk nl le gl bns (built_heads_at nl ind hid outd s1)
             (mkDropout p) pl.
Proof.
  intros H.
  destruct (GIN_init_inv _ _ _ _ _ _ _ _ _ _ _ _ H)
    as (gl & bns & s1 & pl & Hconvs & Hdrop & Hpool & Hm).
  exists gl, bns, s1, pl. split; [exact Hconvs|]. split; [|exact Hm].
  rewrite GIN_init_phases, (bind_ok _ Hconvs) in H.
  unfold range at 1 in H. rewrite (bind_ok _ (head_loop_eq _ _ _ _ _ _ _)) in H.
  rewrite (bind_ok _ Hdrop), (bind_ok _ Hpool) in H.
  unfold ret in H. now injection H as _ <-.
Qed.

Lemma built_heads_ids (nl : Z) (ind hid outd s : nat) :
  map lin_id (built_heads_at nl ind hid outd s) = seq s (Z.to_nat nl).
Proof.
  unfold built_heads_at. rewrite map_map. cbn [lin_id].
  rewrite map_add_seq. f_equal. lia.
Qed.

(** X5.  [GIN.__init__] gives every module of the model a parameter block
    of its own.  The blocks of the graph convolutions (their MLPs, the
    batch normalisations of their [ApplyNodeFunc], their [eps]), of the
    batch normalisations of the model and of the prediction heads are
    exactly the identifiers allocated during the construction, each once: no
    two modules share parameters.  With [num_layers >= 1] there are
    [(num_layers - 1) * (2 * num_mlp_layers + 2) + num_layers] of them. *)
Theorem GIN_init_parameter_blocks (num_layers num_mlp_layers : Z)
  (input_dim hidden_dim output_dim : nat) (final_dropout : Q)
  (learn_eps : bool) (graph_pooling_type neighbor_pooling_type : string)
  (s s' : nat) (m : GIN.t) :
  GIN.__init__ num_layers num_mlp_layers input_dim hidden_dim output_dim
    final_dropout learn_eps graph_pooling_type neighbor_pooling_type s
  = Ok (m, s') ->
  s <= s'
  /\ Permutation (GIN_param_ids m) (seq s (s' - s))
  /\ NoDup (GIN_param_ids m)
  /\ ((1 <= num_layers)%Z ->
      Z.of_nat (length (GIN_param_ids m))
      = ((num_layers - 1) * (2 * num_mlp_layers + 2) + num_layers)%Z).
Proof.
  intros Hinit.
  assert (Hnml : (2 <= num_layers)%Z -> (1 <= num_mlp_layers)%Z).
  { intros H2.
    destruct (Z_lt_le_dec num_mlp_layers 1) as [Hlt|Hge]; [|exact Hge].
    rewrite GIN_init_layer_count_error in Hinit by assumption. discriminate. }
  destruct (GIN_init_run _ _ _ _ _ _ _ _ _ _ _ _ Hinit)
    as (gl & bns & s1 & pl & Hconvs & -> & ->).
  apply conv_loop_blocks in Hconvs. destruct Hconvs as (-> & Hperm & _).
  set (n := Z.to_nat (num_layers - 1) * blocks_per_layer num_mlp_layers) in *.
  assert (Hall : Permutation
                   (GIN_param_ids
                      (GIN.mk num_layers learn_eps gl bns
                         (built_heads_at num_layers input_dim hidden_dim
                            output_dim (s + n))
                         (mkDropout final_dropout) pl))
                   (seq s (n + Z.to_nat num_layers))).
  { unfold GIN_param_ids, body_param_ids.
    cbn [GIN.ginlayers GIN.batch_norms GIN.linears_prediction].
    rewrite built_heads_ids, seq_app.
    apply Permutation_app_tail. exact Hperm. }
  split; [lia|].
  replace (s + n + Z.to_nat num_layers - s) with (n + Z.to_nat num_layers)
    by lia.
  split; [exact Hall|]. split.
  - apply (Permutation_NoDup (Permutation_sym Hall)). apply seq_NoDup.
  - intros Hnl. rewrite (Permutation_length Hall), length_seq.
    unfold n, blocks_per_layer.
    destruct (Z_lt_le_dec num_layers 2) as [Hlt|Hge].
    + replace (Z.to_nat (num_layers - 1)) with 0 by lia.
      replace (num_layers - 1)%Z with 0%Z by lia. lia.
    + specialize (Hnml Hge). nia.
Qed.

Lemma GIN_init_parameter_blocks_witness :
  0 <= 15
  /\ Permutation (GIN_param_ids example_gin) (seq 0 (15 - 0))
  /\ NoDup (GIN_param_ids example_gin)
  /\ ((1 <= 3)%Z ->
      Z.of_nat (length (GIN_param_ids example_gin))
      = ((3 - 1) * (2 * 2 + 2) + 3)%Z).
Proof.
  apply (GIN_init_parameter_blocks 3 2 4 5 2 (1 # 2) true "sum" "max" 0 15
           example_gin).
  reflexivity.
Defined.

Lemma GIN_forward_without_layers_witness :
  GIN.forward (F := ShapeOnly.framework) layerless_gin (6, 2) [6; 4] tt
  = Raise IndexError.
Proof.
  apply (GIN_forward_without_layers (F := ShapeOnly.framework) 0 0 4 5 2
           (1 # 2) true "sum" "sum" 0 0 layerless_gin (6, 2) [6; 4] tt).
  - reflexivity.
  - lia.
Defined.

(** * Further properties of the forward pass of GIN *)

(** X7.  With [num_layers = 1] the model is a linear readout.  The
    construction does not depend on num_mlp_layers, hidden_dim or
    neighbor_pooling_type; it builds no graph convolution and one head from
    input_dim to output_dim; and [forward] is the dropout of that head
    applied to the pooled input, added to the integer 0. *)
Theorem GIN_single_layer_is_linear_readout {F : Framework}
  (num_mlp_layers num_mlp_layers' : Z)
  (input_dim hidden_dim hidden_dim' output_dim : nat) (final_dropout : Q)
  (learn_eps : bool)
  (graph_pooling_type neighbor_pooling_type neighbor_pooling_type' : string)
  (s : nat) :
  GIN.__init__ 1 num_mlp_layers input_dim hidden_dim output_dim final_dropout
    learn_eps graph_pooling_type neighbor_pooling_type s
  = GIN.__init__ 1 num_mlp_layers' input_dim hidden_dim' output_dim
      final_dropout learn_eps graph_pooling_type neighbor_pooling_type' s
  /\ forall m s',
      GIN.__init__ 1 num_mlp_layers input_dim hidden_dim output_dim
        final_dropout learn_eps graph_pooling_type neighbor_pooling_type s
      = Ok (m, s') ->
      GIN.ginlayers m = []
      /\ GIN.linears_prediction m = [mkLinear s input_dim output_dim]
      /\ forall g h w,
          GIN.forward m g h w
          = linear_readout (GIN.pool m) (mkLinear s input_dim output_dim)
              (GIN.drop m) g h w.
Proof.
  split; [reflexivity|].
  intros m s' Hinit.
  destruct (GIN_init_run _ _ _ _ _ _ _ _ _ _ _ _ Hinit)
    as (gl & bns & s1 & pl & Hconvs & _ & ->).
  cbn in Hconvs. injection Hconvs as <- <- <-.
  assert (Hheads : built_heads_at 1 input_dim hidden_dim output_dim s
                   = [mkLinear s input_dim output_dim]).
  { unfold built_heads_at. change (Z.to_nat 1) with 1. cbn [seq map].
    unfold rep_dim. cbn [Nat.eqb]. now rewrite Nat.add_0_r. }
  rewrite Hheads. cbn [GIN.ginlayers GIN.linears_prediction GIN.pool GIN.drop].
  split; [reflexivity|]. split; [reflexivity|].
  intros g h w.
  unfold GIN.forward, GIN.hidden_rep, GIN.score_over_layer, linear_readout,
    enumerate.
  cbn [GIN.num_layers GIN.linears_prediction GIN.pool GIN.drop].
  change (range (1 - 1)) with (@nil Z). cbn [for_each].
  unfold bind, ret. cbn [enumerate_from for_each]. unfold bind, ret.
  destruct (lift (pool_fwd pl g h) w) as [[pooled w1]|e]; [|reflexivity].
  change (ModuleList_getitem [mkLinear s input_dim output_dim] 0 w1)
    with (Ok (mkLinear s input_dim output_dim, w1)).
  cbv beta iota.
  destruct (lift (linear_fwd (mkLinear s input_dim output_dim) pooled) w1)
    as [[y w2]|e]; [|reflexivity].
  destruct (lift (dropout_fwd (mkDropout final_dropout) y) w2)
    as [[d w3]|e]; [|reflexivity].
  cbn [GIN.iadd]. unfold bind, ret.
  destruct (lift (scalar_radd 0 d) w3) as [[r w4]|e]; reflexivity.
Qed.

Lemma GIN_single_layer_is_linear_readout_witness :
  GIN.ginlayers single_layer_gin = []
  /\ GIN.linears_prediction single_layer_gin = [mkLinear 0 4 2]
  /\ forall g h w,
      GIN.forward (F := ShapeOnly.framework) single_layer_gin g h w
      = linear_readout (GIN.pool single_layer_gin) (mkLinear 0 4 2)
          (GIN.drop single_layer_gin) g h w.
Proof.
  apply (proj2 (GIN_single_layer_is_linear_readout (F := ShapeOnly.framework)
                  0 0 4 5 5 2 (1 # 2) true "mean" "median" "median" 0)
           single_layer_gin 1).
  reflexivity.
Defined.

Lemma triple_any {St A : Type} (c : M St A) :
  triple (fun _ => True) c (fun _ => True).
Proof. intros s. destruct (c s) as [[a s']|e]; exact Logic.I. Qed.

(** Whatever the model, [hidden_rep] starts with the input. *)
Lemma hidden_rep_starts_with_input {F : Framework} (m : GIN.t) (g : DGLGraph)
  (h : Tensor) :
  triple (fun _ => True) (GIN.hidden_rep m g h)
    (fun hs => nth_error hs 0 = Some h).
Proof.
  unfold GIN.hidden_rep.
  pose (I := fun (_ : nat) (acc : Tensor * list Tensor) =>
               nth_error (snd acc) 0 = Some h).
  apply triple_bind with (P := I (0 + length (range (GIN.num_layers m - 1)))).
  - apply triple_for_each; [reflexivity|].
    intros j a [h0 hs0] _ Hhs. unfold I in Hhs. cbn [snd] in Hhs.
    eapply triple_bind; [apply triple_any|]. intros conv _.
    eapply triple_bind; [apply triple_any|]. intros h1 _.
    eapply triple_bind; [apply triple_any|]. intros bn _.
    eapply triple_bind; [apply triple_any|]. intros h2 _.
    eapply triple_bind; [apply triple_any|]. intros h3 _.
    apply triple_ret. unfold I. cbn [snd].
    destruct hs0 as [|x hs0]; [discriminate|exact Hhs].
  - intros [h' hs] Hhs. apply triple_ret. exact Hhs.
Qed.

Lemma iadd_returns_tensor {F : Framework} (acc : GIN.score) (x : Tensor) :
  triple (fun _ => True) (GIN.iadd acc x)
    (fun r => exists t, r = GIN.PyTensor t).
Proof.
  destruct acc as [z|a]; cbn [GIN.iadd];
    (eapply triple_bind; [apply triple_any|]);
    intros y _; apply triple_ret; now exists y.
Qed.

(** X8.  [forward] never returns the integer its accumulator starts from:
    for every model, built by [__init__] or not, every framework and every
    input, when [forward] returns it returns a tensor. *)
Theorem GIN_forward_returns_tensor {F : Framework} (m : GIN.t) (g : DGLGraph)
  (h : Tensor) (w w' : World) (r : GIN.score) :
  GIN.forward m g h w = Ok (r, w') -> exists t, r = GIN.PyTensor t.
Proof.
  intros Hrun.
  assert (H : triple (fun _ => True) (GIN.forward m g h)
                (fun r => exists t, r = GIN.PyTensor t)).
  { unfold GIN.forward.
    eapply triple_bind; [apply hidden_rep_starts_with_input|].
    intros hs Hhs. cbv beta in Hhs. unfold GIN.score_over_layer.
    pose (I := fun (k : nat) (acc : GIN.score) =>
                 k = 0 \/ exists t, acc = GIN.PyTensor t).
    apply triple_weaken with (P := I (0 + length (enumerate hs))).
    - apply triple_for_each; [now left|].
      intros j [i x] acc _ _.
      eapply triple_bind; [apply triple_any|]. intros pooled _.
      eapply triple_bind; [apply triple_any|]. intros lin _.
      eapply triple_bind; [apply triple_any|]. intros y _.
      eapply triple_bind; [apply triple_any|]. intros d _.
      eapply triple_weaken; [apply iadd_returns_tensor|].
      intros r' Hr'. now right.
    - intros r' [Hk|Hr']; [|exact Hr'].
      unfold enumerate in Hk. rewrite length_enumerate_from in Hk.
      destruct hs; [discriminate|discriminate]. }
  specialize (H w). rewrite Hrun in H. exact H.
Qed.

Lemma GIN_forward_returns_tensor_witness :
  exists t, GIN.PyTensor (F := ShapeOnly.framework) [2; 2] = GIN.PyTensor t.
Proof.
  apply (GIN_forward_returns_tensor (F := ShapeOnly.framework) example_gin
           (6, 2) [6; 4] tt tt).
  reflexivity.
Defined.

Lemma aggregate_total {F : Framework} {L : ShapeLaws F} (r : Reducer)
  (e : nat) (g : DGLGraph) (x : Tensor) (d : nat) :
  shape x = [num_nodes g; d] ->
  triple (fun _ => False) (lift (gin_aggregate r e g x))
    (fun y => shape y = [num_nodes g; d]).
Proof. intros Hx. now apply yields_triple, aggregate_shape. Qed.

(** X9.  Over a framework that satisfies the shape laws, the first loop of
    [forward] of a GIN built by [__init__] returns for every input of one
    row of input_dim features per node whose number of nodes batch
    normalisation accepts (a condition only when there is a graph
    convolution, [num_layers >= 2]): [hidden_rep] starts with the input
    itself, holds one more entry per graph convolution, and every later
    entry has one row of hidden_dim features per node. *)
Theorem GIN_hidden_rep_shapes {F : Framework} (L : ShapeLaws F)
  (num_layers num_mlp_layers : Z) (input_dim hidden_dim output_dim : nat)
  (final_dropout : Q) (learn_eps : bool)
  (graph_pooling_type neighbor_pooling_type : string) (s s' : nat)
  (m : GIN.t) (g : DGLGraph) (h : Tensor) :
  GIN.__init__ num_layers num_mlp_layers input_dim hidden_dim output_dim
    final_dropout learn_eps graph_pooling_type neighbor_pooling_type s
  = Ok (m, s') ->
  shape h = [num_nodes g; input_dim] ->
  ((2 <= num_layers)%Z -> batch_norm_accepts (num_nodes g) = true) ->
  forall w, exists hidden_rep w',
    GIN.hidden_rep m g h w = Ok (hidden_rep, w')
    /\ length hidden_rep = S (length (GIN.ginlayers m))
    /\ nth_error hidden_rep 0 = Some h
    /\ forall j x, nth_error hidden_rep (S j) = Some x ->
                   shape x = [num_nodes g; hidden_dim].
Proof.
  intros Hinit Hh Hrows w. apply GIN_init_built in Hinit.
  assert (Hr : 0 < Z.to_nat (num_layers - 1) ->
               batch_norm_accepts (num_nodes g) = true)
    by (intros H; apply Hrows; lia).
  pose proof (hidden_rep_typed (fun _ => False) (fun x s => shape x = s)
                (fun n => batch_norm_accepts n = true)
                linear_total batch_norm_total relu_total aggregate_total
                g h Hinit Hr Hh w) as Htotal.
  pose proof (hidden_rep_starts_with_input m g h w) as Hfirst.
  destruct (GIN.hidden_rep m g h w) as [[hs w']|e]; [|contradiction].
  destruct Htotal as [Hlen Hshapes].
  exists hs, w'. split; [reflexivity|].
  split; [now rewrite (built_ginlayers Hinit)|].
  split; [exact Hfirst|].
  intros j x Hj. apply (Hshapes (S j) x Hj).
Qed.

Lemma GIN_hidden_rep_shapes_witness :
  exists hidden_rep w',
    GIN.hidden_rep (F := ShapeOnly.framework) example_gin (6, 2) [6; 4] tt
    = Ok (hidden_rep, w')
    /\ length hidden_rep = 3
    /\ nth_error hidden_rep 0 = Some [6; 4]
    /\ forall j x, nth_error hidden_rep (S j) = Some x -> x = [6; 5].
Proof.
  apply (GIN_hidden_rep_shapes ShapeOnly_laws 3 2 4 5 2 (1 # 2) true "sum"
           "max" 0 15 example_gin (6, 2) [6; 4]).
  - reflexivity.
  - reflexivity.
  - intros _. reflexivity.
Defined.

(** * Further properties: the wiring of the layers *)

(** X10.  The model [GIN.__init__] returns is wired by layer index.  Head 0
    and the MLP of graph convolution 0 take input_dim features, every later
    head and MLP takes hidden_dim; every head returns output_dim features;
    every MLP is the one [MLP(num_mlp_layers, ., hidden_dim, hidden_dim)]
    builds; every batch normalisation, in the model and in [ApplyNodeFunc],
    has width hidden_dim; every graph convolution starts from [eps = 0] and
    carries the [learn_eps] flag of the model; and the model keeps
    [num_layers], [learn_eps] and the dropout probability it was given. *)
Theorem GIN_init_layer_wiring (num_layers num_mlp_layers : Z)
  (input_dim hidden_dim output_dim : nat) (final_dropout : Q)
  (learn_eps : bool) (graph_pooling_type neighbor_pooling_type : string)
  (s s' : nat) (m : GIN.t) :
  GIN.__init__ num_layers num_mlp_layers input_dim hidden_dim output_dim
    final_dropout learn_eps graph_pooling_type neighbor_pooling_type s
  = Ok (m, s') ->
  GIN.num_layers m = num_layers
  /\ GIN.learn_eps m = learn_eps
  /\ dropout_p (GIN.drop m) = final_dropout
  /\ (forall j l,
         nth_error (GIN.linears_prediction m) j = Some l ->
         in_features l = (if Nat.eqb j 0 then input_dim else hidden_dim)
         /\ out_features l = output_dim)
  /\ (forall j b,
         nth_error (GIN.batch_norms m) j = Some b ->
         num_features b = hidden_dim)
  /\ (forall j c,
         nth_error (GIN.ginlayers m) j = Some c ->
         GINConv.init_eps c = 0%Z
         /\ GINConv.learn_eps c = learn_eps
         /\ num_features (ApplyNodeFunc.bn (GINConv.apply_func c)) = hidden_dim
         /\ exists s0 s1,
             MLP.__init__ num_mlp_layers
               (if Nat.eqb j 0 then input_dim else hidden_dim)
               hidden_dim hidden_dim s0
             = Ok (ApplyNodeFunc.mlp (GINConv.apply_func c), s1)).
Proof.
  intros Hinit.
  pose proof (GIN_init_built _ _ _ _ _ _ _ _ _ _ _ _ Hinit) as B.
  destruct (GIN_init_run _ _ _ _ _ _ _ _ _ _ _ _ Hinit)
    as (gl & bns & s1 & pl & Hconvs & _ & Hm).
  apply conv_loop_blocks in Hconvs. destruct Hconvs as (_ & _ & Hall).
  split; [now subst m|]. split; [now subst m|]. split; [now subst m|].
  split; [exact (fun j l H => built_head B j H)|].
  split; [exact (fun j b H => built_batch_norm B j H)|].
  intros j c Hc.
  assert (Hin : In c gl) by (subst m; apply (nth_error_In _ _ Hc)).
  destruct (proj1 (Forall_forall _ _) Hall c Hin) as [Heps Hle].
  destruct (built_conv B j Hc) as [Hmlp Hbn].
  split; [exact Heps|]. split; [exact Hle|]. split; [exact Hbn|].
  exact Hmlp.
Qed.

Lemma GIN_init_layer_wiring_witness :
  GIN.num_layers example_gin = 3%Z
  /\ GIN.learn_eps example_gin = true
  /\ dropout_p (GIN.drop example_gin) = (1 # 2)%Q
  /\ (forall j l,
         nth_error (GIN.linears_prediction example_gin) j = Some l ->
         in_features l = (if Nat.eqb j 0 then 4 else 5)
         /\ out_features l = 2)
  /\ (forall j b,
         nth_error (GIN.batch_norms example_gin) j = Some b ->
         num_features b = 5)
  /\ (forall j c,
         nth_error (GIN.ginlayers example_gin) j = Some c ->
         GINConv.init_eps c = 0%Z
         /\ GINConv.learn_eps c = true
         /\ num_features (ApplyNodeFunc.bn (GINConv.apply_func c)) = 5
         /\ exists s0 s1,
             MLP.__init__ 2 (if Nat.eqb j 0 then 4 else 5) 5 5 s0
             = Ok (ApplyNodeFunc.mlp (GINConv.apply_func c), s1)).
Proof.
  apply (GIN_init_layer_wiring 3 2 4 5 2 (1 # 2) true "sum" "max" 0 15
           example_gin).
  reflexivity.
Defined.

(** * Further properties: which error the constructor of GIN reports *)

(** X11.  The outcome of [GIN.__init__] follows the order of its checks.  It
    returns a model exactly when the layers can be built (with a graph
    convolution to build, [num_mlp_layers >= 1] and a recognised neighbour
    pooling type), the dropout probability is valid and the graph pooling
    type is recognised.  It raises the KeyError of [GINConv] exactly when
    there is a graph convolution to build, [num_mlp_layers >= 1] and the
    neighbour pooling type is not recognised, whatever the later arguments.
    It raises NotImplementedError exactly when everything before the
    selection of the readout is valid and the graph pooling type is not
    recognised: an unknown graph pooling type is reported last. *)
Theorem GIN_init_outcome (num_layers num_mlp_layers : Z)
  (input_dim hidden_dim output_dim : nat) (final_dropout : Q)
  (learn_eps : bool) (graph_pooling_type neighbor_pooling_type : string)
  (s : nat) :
  let r := GIN.__init__ num_layers num_mlp_layers input_dim hidden_dim
             output_dim final_dropout learn_eps graph_pooling_type
             neighbor_pooling_type s in
  let known_pool := graph_pooling_type = "sum"%string
                    \/ graph_pooling_type = "mean"%string
                    \/ graph_pooling_type = "max"%string in
  ((exists m s', r = Ok (m, s'))
   <-> layers_constructible num_layers num_mlp_layers neighbor_pooling_type
       /\ dropout_valid final_dropout /\ known_pool)
  /\ (r = Raise (KeyError "Aggregator type not recognized.")
      <-> (2 <= num_layers)%Z /\ (1 <= num_mlp_layers)%Z
          /\ recognised_aggregator neighbor_pooling_type = false)
  /\ (r = Raise NotImplementedError
      <-> layers_constructible num_layers num_mlp_layers neighbor_pooling_type
          /\ dropout_valid final_dropout /\ ~ known_pool).
Proof.
  intros r known_pool.
  pose proof (GIN_init_cases num_layers num_mlp_layers input_dim hidden_dim
                output_dim final_dropout learn_eps graph_pooling_type
                neighbor_pooling_type s) as Hcases.
  cbv zeta in Hcases. fold r in Hcases.
  assert (Hunknown : graph_pooling_type <> "sum"%string ->
                     graph_pooling_type <> "mean"%string ->
                     graph_pooling_type <> "max"%string -> ~ known_pool).
  { intros G1 G2 G3 [G|[G|G]]; contradiction. }
  assert (Hnot : forall nl nml npt,
             (2 <= nl)%Z -> layers_constructible nl nml npt ->
             (1 <= nml)%Z /\ recognised_aggregator npt = true).
  { intros nl nml npt H2 H. exact (H H2). }
  destruct Hcases as [(H1 & H2 & Hr)|[(H1 & H2 & H3 & Hr)|[(Hl & Hp & Hr)
    |[(Hl & Hp & G1 & G2 & G3 & Hr)|(Hl & Hp & m & s' & Hr & Hpool)]]]];
    rewrite Hr.
  - split; [|split]; split.
    + intros (m & s' & H). discriminate.
    + intros (Hl & _). destruct (Hnot _ _ _ H1 Hl). lia.
    + discriminate.
    + intros (_ & H & _). lia.
    + discriminate.
    + intros (Hl & _). destruct (Hnot _ _ _ H1 Hl). lia.
  - split; [|split]; split.
    + intros (m & s' & H). discriminate.
    + intros (Hl & _). destruct (Hnot _ _ _ H1 Hl). congruence.
    + intros _. now repeat split.
    + reflexivity.
    + discriminate.
    + intros (Hl & _). destruct (Hnot _ _ _ H1 Hl). congruence.
  - split; [|split]; split.
    + intros (m & s' & H). discriminate.
    + intros (_ & H & _). contradiction.
    + discriminate.
    + intros (H1 & H2 & H3). destruct (Hnot _ _ _ H1 Hl). congruence.
    + discriminate.
    + intros (_ & H & _). contradiction.
  - split; [|split]; split.
    + intros (m & s' & H). discriminate.
    + intros (_ & _ & H). now destruct (Hunknown G1 G2 G3).
    + discriminate.
    + intros (H1 & H2 & H3). destruct (Hnot _ _ _ H1 Hl). congruence.
    + intros _. split; [exact Hl|]. split; [exact Hp|]. now apply Hunknown.
    + reflexivity.
  - assert (Hknown : known_pool).
    { destruct Hpool as [[G _]|[[G _]|[G _]]]; unfold known_pool; auto. }
    split; [|split]; split.
    + intros _. split; [exact Hl|]. split; [exact Hp|exact Hknown].
    + intros _. now exists m, s'.
    + discriminate.
    + intros (H1 & H2 & H3). destruct (Hnot _ _ _ H1 Hl). congruence.
    + discriminate.
    + intros (_ & _ & H). contradiction.
Qed.

Lemma GIN_init_outcome_witness :
  (exists m s', GIN.__init__ 3 2 4 5 2 (1 # 2) true "sum" "max" 0 = Ok (m, s'))
  /\ GIN.__init__ 3 2 4 5 2 (3 # 2) false "avg" "median" 0
     = Raise (KeyError "Aggregator type not recognized.")
  /\ GIN.__init__ 1 0 4 5 2 (1 # 2) false "avg" "median" 0
     = Raise NotImplementedError.
Proof.
  split; [|split].
  - apply (proj2 (proj1 (GIN_init_outcome 3 2 4 5 2 (1 # 2) true "sum" "max"
                           0))).
    split; [intros _; split; [lia|reflexivity]|].
    split; [reflexivity|]. left. reflexivity.
  - apply (proj2 (proj1 (proj2 (GIN_init_outcome 3 2 4 5 2 (3 # 2) false
                                   "avg" "median" 0)))).
    split; [lia|]. split; [lia|reflexivity].
  - apply (proj2 (proj2 (proj2 (GIN_init_outcome 1 0 4 5 2 (1 # 2) false
                                   "avg" "median" 0)))).
    split; [intros H; lia|]. split; [reflexivity|].
    intros [H|[H|H]]; discriminate.
Defined.
